(** * Payment-event handlers of [functions/index.js]

    A shallow embedding of the Cloud Functions in [functions/index.js]
    (the Stripe handlers, the error reporter and the two mail handlers),
    with the hosted database as a tree of JSON nodes and the payment
    provider, the logging sink and the mail transport as an interface
    whose answers the handlers cannot choose. *)

From stdpp Require Import gmap strings list fin_maps pretty.
From Stdlib Require Import ZArith Ascii.

Set Warnings "-register-all".
Open Scope string_scope.
Open Scope list_scope.

(** ** Values *)

(** What the Realtime Database stores and what the provider answers:
    JSON.  Numbers are the integers the handlers deal in (amounts in the
    smallest currency unit); an object is a finite map from keys.  Arrays
    are left out: every statement below is about values without one. *)
Inductive json :=
| JNull
| JBool (b : bool)
| JNum (n : Z)
| JStr (s : string)
| JObj (fields : gmap string json).

(** A JavaScript expression evaluates to a JSON value or to [undefined];
    [None] is [undefined]. *)
Definition jsval := option json.

(** An object literal of the source, fields in the order written; a field
    whose expression evaluated to [undefined] is kept, as JavaScript does. *)
Definition literal := list (string * jsval).

(** [l.k] on an object literal. *)
Definition field (l : literal) (k : string) : jsval :=
  match List.find (fun kv => String.eqb (fst kv) k) l with
  | Some (_, v) => v
  | None => None
  end.

(** [v.k] for [v] other than [null] and [undefined]: the field of an
    object, [undefined] on a missing key or on a primitive. *)
Definition prop (v : json) (k : string) : jsval :=
  match v with
  | JObj m => m !! k
  | _ => None
  end.

(** JavaScript's ToBoolean. *)
Definition truthy (v : jsval) : bool :=
  match v with
  | None => false
  | Some JNull => false
  | Some (JBool b) => b
  | Some (JNum n) => negb (n =? 0)%Z
  | Some (JStr s) => negb (String.eqb s EmptyString)
  | Some (JObj _) => true
  end.

(** [v === null] and [v !== null]. *)
Definition is_null (v : json) : bool :=
  match v with JNull => true | _ => false end.

Definition not_null (v : jsval) : bool :=
  match v with Some JNull => false | _ => true end.

(** [a || b] on values. *)
Definition js_or (a : jsval) (b : json) : json :=
  match a with
  | Some v => if truthy a then v else b
  | None => b
  end.

(** The key is a field of the object, whatever it holds. *)
Definition has_field (v : json) (k : string) : Prop :=
  is_Some (prop v k).

(** ** The Realtime Database *)

Definition path := list string.

(** [ref.parent] and [ref.child(k)]. *)
Definition parent (p : path) : path := removelast p.

Definition child_ref (p : path) (k : string) : path := p ++ [k].

Definition node (v : json) : gmap string json :=
  match v with JObj m => m | _ => ∅ end.

Definition child (v : json) (k : string) : json :=
  default JNull (node v !! k).

(** [ref(p).once('value')] then [snapshot.val()]: [null] where nothing is
    stored. *)
Fixpoint db_get (p : path) (root : json) : json :=
  match p with
  | [] => root
  | k :: p' => db_get p' (child root k)
  end.

(** The database keeps neither [null] leaves nor empty objects, at any
    depth: a node with no field left is [null]. *)
Definition prune (m : gmap string json) : json :=
  if decide (m = ∅) then JNull else JObj m.

Definition kept (v : json) : option json :=
  if is_null v then None else Some v.

(** A value as the database holds it once set: the [null] fields and the
    objects they leave empty are gone. *)
Fixpoint normalize (v : json) : json :=
  match v with
  | JObj m => prune (omap (fun c => kept (normalize c)) m)
  | _ => v
  end.

(** The keys the database client accepts in a value: not empty, and free
    of control characters and of [. # $ / [ ]].  The three keys the client
    reserves for itself ([.value], [.priority], [.sv]) are not modelled
    apart: a value with one of them counts as refused. *)
Definition bad_char (c : ascii) : bool :=
  let n := nat_of_ascii c in
  (n <? 32)%nat || (n =? 127)%nat ||
  existsb (Ascii.eqb c) ["."%char; "#"%char; "$"%char; "/"%char; "["%char; "]"%char].

Definition valid_key (k : string) : bool :=
  negb (String.eqb k EmptyString)
  && negb (existsb bad_char (String.list_ascii_of_string k)).

(** The values [set] takes: every key, at any depth, is valid. *)
Fixpoint storable (v : json) : bool :=
  match v with
  | JObj m => map_fold (fun k c ok => valid_key k && storable c && ok) true m
  | _ => true
  end.

(** [ref(p).set(x)] for a value the client takes: replaces the node at [p]
    by [x] as the database holds it, creating the nodes above it; setting
    [null] removes the node and the nodes it leaves empty. *)
Fixpoint db_write (p : path) (x : json) (root : json) : json :=
  match p with
  | [] => normalize x
  | k :: p' =>
      let c := db_write p' x (child root k) in
      prune (if is_null c then delete k (node root) else <[k := c]> (node root))
  end.

(** ** Errors, events and the world *)

(** A rejection carries an [Error] object: [message] and [stack] are
    strings, [type] is whatever the thrower attached ([undefined] when it
    attached nothing). *)
Record js_error := mk_error {
  err_type : jsval;
  err_message : string;
  err_stack : string
}.

(** The state a promise settles in. *)
Inductive settled (A : Type) :=
| Fulfilled (a : A)
| Rejected (e : js_error).
Arguments Fulfilled {A} a.
Arguments Rejected {A} e.

(** Every call that leaves the function, in the order made. *)
Inductive event :=
| DbOnce (p : path)
| DbSet (p : path) (v : json)
| DbRemove (p : path)
| ChargesCreate (charge : literal) (idempotency_key : string)
| CustomersCreate (params : literal)
| CustomersCreateSource (customer : json) (params : literal)
| CustomersDel (customer : json)
| LogWrite (logName : string) (metadata data : json)
| SendMail (mailOptions : literal)
| ConsoleLog (text : string) (arg : jsval)
| ConsoleError (text : string) (e : js_error).

(** The calls to the payment provider's client, [stripe]; what the client
    does with a call is its own affair. *)
Definition provider_call (e : event) : bool :=
  match e with
  | ChargesCreate _ _ | CustomersCreate _ | CustomersCreateSource _ _
  | CustomersDel _ => true
  | _ => false
  end.

Definition db_update (e : event) : bool :=
  match e with
  | DbSet _ _ | DbRemove _ => true
  | _ => false
  end.

Definition mail_sent (e : event) : bool :=
  match e with SendMail _ => true | _ => false end.

(** The services outside the repository: [stripe], the Stackdriver log
    and the nodemailer transport.  [X] is their state; each call answers
    and moves it.  [set_refused] is the [Error] the database client throws
    from [set] for a value it does not take, at a place and for a value;
    its text is the client's own. *)
Class Services (X : Type) := {
  charges_create : literal -> string -> X -> settled json * X;
  customers_create : literal -> X -> settled json * X;
  customers_createSource : json -> literal -> X -> settled json * X;
  customers_del : json -> X -> settled json * X;
  log_write : string -> json -> json -> X -> option js_error * X;
  sendMail : literal -> X -> settled json * X;
  set_refused : path -> jsval -> js_error
}.

Record world (X : Type) := mk_world {
  db : json;
  ext : X;
  trace : list event
}.
Arguments mk_world {X} db ext trace.
Arguments db {X} w.
Arguments ext {X} w.
Arguments trace {X} w.

Definition emit {X} (e : event) (w : world X) : world X :=
  mk_world (db w) (ext w) (trace w ++ [e]).

(** ** Promises *)

(** A handler's promise chain, run to its end: how it settles, and the
    world it leaves. *)
Definition promise (X A : Type) := world X -> settled A * world X.

Definition resolve {X A} (a : A) : promise X A := fun w => (Fulfilled a, w).

Definition reject {X A} (e : js_error) : promise X A := fun w => (Rejected e, w).

(** [p.then(f)] *)
Definition and_then {X A B} (p : promise X A) (f : A -> promise X B) : promise X B :=
  fun w =>
    match p w with
    | (Fulfilled a, w') => f a w'
    | (Rejected e, w') => (Rejected e, w')
    end.

(** [p.then(f, g)]: [g] sees a rejection of [p], not one of [f]. *)
Definition then_or {X A B} (p : promise X A) (f : A -> promise X B)
    (g : js_error -> promise X B) : promise X B :=
  fun w =>
    match p w with
    | (Fulfilled a, w') => f a w'
    | (Rejected e, w') => g e w'
    end.

(** [p.catch(g)] *)
Definition catch {X A} (p : promise X A) (g : js_error -> promise X A) : promise X A :=
  fun w =>
    match p w with
    | (Fulfilled a, w') => (Fulfilled a, w')
    | (Rejected e, w') => g e w'
    end.

Notation "'let*' x ':=' p 'in' k" := (and_then p (fun x => k))
  (at level 10, x name, p at level 100, k at level 200).

(** A call to a service: recorded, answered by the service. *)
Definition call {X} (e : event) (f : X -> settled json * X) : promise X json :=
  fun w =>
    let '(r, x') := f (ext w) in
    (r, mk_world (db w) x' (trace w ++ [e])).

Definition once_value {X} (p : path) : promise X json :=
  fun w => (Fulfilled (db_get p (db w)), emit (DbOnce p) w).

(** [ref.set(v)]: the client checks the value first and throws, before
    anything is sent, on [undefined] and on a value with a key it does not
    take; otherwise the value is set. *)
Definition ref_set {X} `{Services X} (p : path) (v : jsval) : promise X jsval :=
  match v with
  | Some x =>
      if storable x
      then fun w =>
        (Fulfilled None, mk_world (db_write p x (db w)) (ext w) (trace w ++ [DbSet p x]))
      else reject (set_refused p v)
  | None => reject (set_refused p v)
  end.

Definition ref_remove {X} (p : path) : promise X jsval :=
  fun w =>
    (Fulfilled None, mk_world (db_write p JNull (db w)) (ext w) (trace w ++ [DbRemove p])).

Definition console_log {X} (text : string) (arg : jsval) : promise X jsval :=
  fun w => (Fulfilled None, emit (ConsoleLog text arg) w).

Definition console_error {X} (text : string) (e : js_error) : promise X jsval :=
  fun w => (Fulfilled None, emit (ConsoleError text e) w).

(** ** The handlers *)

(** [functions.config()] and [process.env], fixed when the module loads.
    The platform sets both environment variables. *)
Record config := mk_config {
  stripe_currency : jsval;
  FUNCTION_NAME : string;
  GCLOUD_PROJECT : string
}.

Definition fallback_message : string :=
  "An error occurred, developers have been alerted".

(** Sanitize the error message for the user. *)
Definition userFacingMessage (error : js_error) : string :=
  if truthy (err_type error) then err_message error else fallback_message.

Definition stripe_customers (userId : string) : path :=
  ["stripe_customers"; userId].

Definition customer_id_ref (userId : string) : path :=
  stripe_customers userId ++ ["customer_id"].

Definition charge_ref (userId id : string) : path :=
  stripe_customers userId ++ ["charges"; id].

Definition token_ref (userId pushId : string) : path :=
  stripe_customers userId ++ ["sources"; pushId; "token"].

Definition user_ref (uid : string) : path := ["users"; uid].

Definition order_ref (uid orderId : string) : path :=
  user_ref uid ++ ["orders"; orderId].

(** The snapshot an [onWrite] trigger of [/admins/{id}] hands over: the new
    value, and whether the write left the data under the snapshot other
    than it was. *)
Record delta_snapshot := mk_snapshot {
  snap_val : json;
  snap_differs : bool
}.

(** [snapshot.changed(...)]: the method of the snapshot takes no argument,
    so the ['active'] the handler passes is dropped; it answers for the
    snapshot as a whole. *)
Definition snap_changed (snapshot : delta_snapshot) (_ : string) : bool :=
  snap_differs snapshot.

(** Reading a property of [null] throws a [TypeError]; the invocation, or
    the promise whose callback reads it, fails with it. *)
Definition type_error (k : string) : js_error :=
  let text := "Cannot read property '" +:+ k +:+ "' of null" in
  mk_error None text ("TypeError: " +:+ text).

Definition member {X} (v : json) (k : string) : promise X jsval :=
  if is_null v then reject (type_error k) else resolve (prop v k).

(** The callback of [log.write] in [reportError]: [reject(error)] when it
    is handed an error, [resolve()] otherwise (the [resolve()] after a
    [reject] changes nothing). *)
Definition reported (error : option js_error) : settled jsval :=
  match error with
  | Some e => Rejected e
  | None => Fulfilled None
  end.

Section Handlers.
Context {X : Type} `{Services X} (cfg : config).

Definition currency : json := js_or (stripe_currency cfg) (JStr "USD").

Definition logName : string := "errors".

Definition metadata : json :=
  JObj {[ "resource" :=
    JObj {[ "type" := JStr "cloud_function";
            "labels" := JObj {[ "function_name" := JStr (FUNCTION_NAME cfg) ]} ]} ]}.

Definition errorEvent (err : js_error) (context : json) : json :=
  JObj {[ "message" := JStr (err_stack err);
          "serviceContext" :=
            JObj {[ "service" := JStr (FUNCTION_NAME cfg);
                    "resourceType" := JStr "cloud_function" ]};
          "context" := context ]}.

(** [reportError(err, context)]: one entry written to the log; the
    promise rejects with the error the write calls back with. *)
Definition reportError (err : js_error) (context : json) : promise X jsval :=
  let errorEvent := errorEvent err context in
  fun w =>
    let '(error, x') := log_write logName metadata errorEvent (ext w) in
    (reported error,
     mk_world (db w) x' (trace w ++ [LogWrite logName metadata errorEvent])).

(** The charge of [createStripeCharge]: [{amount, currency, customer}],
    and [source] when [val.source !== null]. *)
Definition charge_of (val customer : json) : literal :=
  let amount := prop val "amount" in
  [("amount", amount); ("currency", Some currency); ("customer", Some customer)]
  ++ (if not_null (prop val "source") then [("source", prop val "source")] else []).

(** [exports.createStripeCharge], on a write at
    [/stripe_customers/{userId}/charges/{id}] whose new value is [val]. *)
Definition createStripeCharge (val : json) (userId id : string) : promise X jsval :=
  let adminRef := charge_ref userId id in
  if is_null val || truthy (prop val "id") || truthy (prop val "error")
  then resolve (Some JNull)
  else
    then_or
      (let* customer := once_value (customer_id_ref userId) in
       let idempotency_key := id in
       let charge := charge_of val customer in
       call (ChargesCreate charge idempotency_key)
            (charges_create charge idempotency_key))
      (fun response => ref_set adminRef (Some response))
      (fun error =>
         let* _ := ref_set (child_ref adminRef "error")
                           (Some (JStr (userFacingMessage error))) in
         reportError error (JObj {[ "user" := JStr userId ]})).

(** [exports.createTheStripeCustomer], when the account [uid] with
    [email] is created. *)
Definition createTheStripeCustomer (uid : string) (email : jsval) : promise X jsval :=
  let params := [("email", email)] in
  let* customer := call (CustomersCreate params) (customers_create params) in
  let* id := member customer "id" in
  ref_set (customer_id_ref uid) id.

(** [exports.addPaymentSource], on a write at
    [/stripe_customers/{userId}/sources/{pushId}/token] whose new value
    is [source]. *)
Definition addPaymentSource (source : json) (userId pushId : string) : promise X jsval :=
  let adminRef := token_ref userId pushId in
  if is_null source then resolve (Some JNull)
  else
    then_or
      (let* customer := once_value (customer_id_ref userId) in
       let params := [("source", Some source)] in
       call (CustomersCreateSource customer params)
            (customers_createSource customer params))
      (fun response => ref_set (parent adminRef) (Some response))
      (fun error =>
         let* _ := ref_set (child_ref (parent adminRef) "error")
                           (Some (JStr (userFacingMessage error))) in
         reportError error (JObj {[ "user" := JStr userId ]})).

(** [exports.cleanupUser], when the account [uid] is deleted. *)
Definition cleanupUser (uid : string) : promise X jsval :=
  let* customer := once_value (stripe_customers uid) in
  let* _ := call (CustomersDel customer) (customers_del customer) in
  ref_remove (stripe_customers uid).

Definition mail_from : jsval :=
  let quote := String "034"%char EmptyString in
  Some (JStr (quote +:+ "FireShop" +:+ quote +:+ " <noreply@firebase.com>")).

(** [mailTransport.sendMail(mailOptions).then(log).catch(console.error)] *)
Definition send_and_log (mailOptions : literal) (text : string) (to : jsval)
    : promise X jsval :=
  catch
    (let* _ := call (SendMail mailOptions) (sendMail mailOptions) in
     console_log text to)
    (fun error => console_error "There was an error while sending the email:" error).

(** [exports.sendEmailConfirmation], on a write at [/admins/{id}]. *)
Definition sendEmailConfirmation (snapshot : delta_snapshot) : promise X jsval :=
  let val := snap_val snapshot in
  if negb (snap_changed snapshot "active") then resolve None
  else
    let* to := member val "email" in
    let mailOptions := [("from", mail_from); ("to", to)] in
    if negb (truthy (prop val "active")) then
      let subject := "Admin Confirmation" in
      let html :=
        "<h2>FireShop</h2>You have been added as an admin to FireShop. <br><br>Sign in now: https://"
        +:+ GCLOUD_PROJECT cfg +:+ ".firebaseapp.com/register" in
      send_and_log
        (mailOptions ++ [("subject", Some (JStr subject)); ("html", Some (JStr html))])
        "New admin confirmation email sent to:" to
    else resolve None.

(** [exports.sendOrderConfirmation], when
    [/users/{uid}/orders/{orderId}] is created. *)
Definition sendOrderConfirmation (uid orderId : string) : promise X jsval :=
  let ref := order_ref uid orderId in
  let* user := once_value (parent (parent ref)) in
  let* email := member user "email" in
  if truthy email then
    let mailOptions := [("from", mail_from); ("to", email)] in
    let subject := "Order Confirmation" in
    let html :=
      "<h2>FireShop</h2>Order #" +:+ orderId
      +:+ ". This is a confirmation email for you order on FireShop. <br><br>" in
    let html :=
      html +:+ "View order details and status by logging in: https://"
      +:+ GCLOUD_PROJECT cfg +:+ ".firebaseapp.com/account/order/" +:+ orderId in
    send_and_log
      (mailOptions ++ [("subject", Some (JStr subject)); ("html", Some (JStr html))])
      "New order confirmation email sent to:" email
  else resolve None.

End Handlers.

(** ** A test double for the services

    Customers are kept by id; a charge or a source needs a known customer;
    a flag makes the provider decline every card.  The log and the mail
    transport acknowledge everything. *)
Module Double.

Record state := mk_state {
  customers : list string;
  issued : nat;
  declining : bool
}.

Definition known (c : json) (st : state) : bool :=
  match c with
  | JStr c => bool_decide (c ∈ customers st)
  | _ => false
  end.

Definition no_such_customer : js_error :=
  mk_error (Some (JStr "invalid_request_error")) "No such customer"
    "Error: No such customer".

Definition card_declined : js_error :=
  mk_error (Some (JStr "card_error")) "Your card was declined."
    "Error: Your card was declined.".

Definition create (params : literal) (st : state) : settled json * state :=
  let id := "cus_" +:+ pretty (issued st) in
  (Fulfilled (JObj {[ "id" := JStr id; "object" := JStr "customer" ]}),
   mk_state (customers st ++ [id]) (S (issued st)) (declining st)).

Definition del (customer : json) (st : state) : settled json * state :=
  match customer with
  | JStr c =>
      if bool_decide (c ∈ customers st)
      then (Fulfilled (JObj {[ "id" := JStr c; "deleted" := JBool true ]}),
            mk_state (List.filter (fun d => negb (String.eqb d c)) (customers st))
                     (issued st) (declining st))
      else (Rejected no_such_customer, st)
  | _ => (Rejected no_such_customer, st)
  end.

Definition charge (c : literal) (key : string) (st : state) : settled json * state :=
  match field c "customer" with
  | Some customer =>
      if known customer st then
        if declining st then (Rejected card_declined, st)
        else (Fulfilled (JObj {[ "id" := JStr ("ch_" +:+ key); "customer" := customer ]}), st)
      else (Rejected no_such_customer, st)
  | None => (Rejected no_such_customer, st)
  end.

Definition createSource (customer : json) (params : literal) (st : state)
    : settled json * state :=
  if known customer st then
    if declining st then (Rejected card_declined, st)
    else (Fulfilled (JObj {[ "id" := JStr "card_1"; "customer" := customer ]}), st)
  else (Rejected no_such_customer, st).

#[global] Instance services : Services state := {
  charges_create := charge;
  customers_create := create;
  customers_createSource := createSource;
  customers_del := del;
  log_write := fun _ _ _ st => (None, st);
  sendMail := fun _ st => (Fulfilled JNull, st);
  set_refused := fun _ _ => mk_error None "Reference.set failed" "Error: Reference.set failed"
}.

Definition cfg : config := mk_config None "createStripeCharge" "fireshop".

Definition start : world state := mk_world JNull (mk_state [] 0 false) [].

(** An account [u1] registered as customer [cus_123]. *)
Definition registered (declining : bool) : world state :=
  mk_world (db_write (customer_id_ref "u1") (JStr "cus_123") JNull)
           (mk_state ["cus_123"] 1 declining) [].

End Double.

(** ** A test double in which every service fails

    The provider rejects charges and sources with an error that carries a
    [type] and an empty message, answers a registration without an [id],
    and is unavailable for deletions; the log and the mail transport
    hand back an error. *)
Module Faulty.

Inductive state := down.

Definition blank : js_error :=
  mk_error (Some (JStr "api_error")) EmptyString "Error".

Definition unavailable : js_error :=
  mk_error None "The service is currently unavailable."
    "Error: The service is currently unavailable.".

#[global] Instance services : Services state := {
  charges_create := fun _ _ st => (Rejected blank, st);
  customers_create := fun _ st => (Fulfilled (JObj {[ "object" := JStr "customer" ]}), st);
  customers_createSource := fun _ _ st => (Rejected blank, st);
  customers_del := fun _ st => (Rejected unavailable, st);
  log_write := fun _ _ _ st => (Some unavailable, st);
  sendMail := fun _ st => (Rejected unavailable, st);
  set_refused := fun _ _ => mk_error None "Reference.set failed" "Error: Reference.set failed"
}.

(** An account [u1] with an address, a customer id and an open request. *)
Definition seeded : world state :=
  mk_world
    (db_write (charge_ref "u1" "c1") (JObj {[ "amount" := JNum 500 ]})
       (db_write (customer_id_ref "u1") (JStr "cus_123")
          (db_write (user_ref "u1") (JObj {[ "email" := JStr "a@b.c" ]}) JNull)))
    down [].

End Faulty.

(** ** A test double whose provider answers in full

    Every charge and every source is accepted, and the answer has, beside
    its [id], fields that hold [null] and an empty object, as the
    provider's answers do.  Deletions are refused; the log and the mail
    transport acknowledge. *)
Module Wordy.

Inductive state := up.

Definition charged : json :=
  JObj {[ "id" := JStr "ch_1"; "paid" := JBool true; "failure_code" := JNull;
          "metadata" := JObj ∅;
          "outcome" := JObj {[ "type" := JStr "authorized"; "reason" := JNull ]} ]}.

Definition card : json :=
  JObj {[ "id" := JStr "card_1"; "name" := JNull; "metadata" := JObj ∅ ]}.

#[global] Instance services : Services state := {
  charges_create := fun _ _ st => (Fulfilled charged, st);
  customers_create := fun _ st => (Fulfilled (JObj {[ "id" := JStr "cus_1" ]}), st);
  customers_createSource := fun _ _ st => (Fulfilled card, st);
  customers_del := fun _ st => (Rejected Double.no_such_customer, st);
  log_write := fun _ _ _ st => (None, st);
  sendMail := fun _ st => (Fulfilled JNull, st);
  set_refused := fun _ _ => mk_error None "Reference.set failed" "Error: Reference.set failed"
}.

(** An account [u1] with a customer id, an open request and a token. *)
Definition seeded : world state :=
  mk_world
    (db_write (token_ref "u1" "s1") (JStr "tok_visa")
       (db_write (charge_ref "u1" "c1") (JObj {[ "amount" := JNum 500 ]})
          (db_write (customer_id_ref "u1") (JStr "cus_1") JNull)))
    up [].

End Wordy.


(** * Properties *)

(** ** The database *)

Lemma child_null k : child JNull k = JNull.
Proof. reflexivity. Qed.

Lemma db_get_null p : db_get p JNull = JNull.
Proof. induction p as [|k p IH]; simpl; [reflexivity | exact IH]. Qed.

Lemma db_get_app p q root : db_get (p ++ q) root = db_get q (db_get p root).
Proof.
  revert root; induction p as [|k p IH]; intros root; simpl; [reflexivity|].
  apply IH.
Qed.

Lemma prune_insert k c (m : gmap string json) : prune (<[k := c]> m) = JObj (<[k := c]> m).
Proof.
  unfold prune. destruct (decide (<[k := c]> m = ∅)) as [E|]; [|reflexivity].
  exfalso. exact (insert_non_empty _ _ _ E).
Qed.

Lemma child_prune (m : gmap string json) k : child (prune m) k = default JNull (m !! k).
Proof.
  unfold prune. destruct (decide (m = ∅)) as [->|]; [|reflexivity].
  rewrite child_null, lookup_empty. reflexivity.
Qed.

(** What is read back where a value was set is the value as the database
    holds it. *)
Lemma db_get_written p x root : db_get p (db_write p x root) = normalize x.
Proof.
  revert root; induction p as [|k p IH]; intros root; simpl; [reflexivity|].
  destruct (is_null (db_write p x (child root k))) eqn:E.
  - rewrite child_prune, lookup_delete_eq. simpl. rewrite <- (IH (child root k)).
    destruct (db_write p x (child root k)); try discriminate E. reflexivity.
  - rewrite child_prune, lookup_insert_eq. simpl. apply IH.
Qed.

(** A text is held as it is. *)
Lemma db_get_write_text p (s : string) root : db_get p (db_write p (JStr s) root) = JStr s.
Proof. apply db_get_written. Qed.

(** After [remove()] nothing is read at the place. *)
Lemma db_get_removed p root : db_get p (db_write p JNull root) = JNull.
Proof. apply db_get_written. Qed.

(** A node below a missing node is missing. *)
Lemma db_get_below p q root : db_get p root = JNull -> db_get (p ++ q) root = JNull.
Proof. intros E. rewrite db_get_app, E. apply db_get_null. Qed.

(** ** Paths *)

Lemma parent_child_ref p k : parent (child_ref p k) = p.
Proof. unfold parent, child_ref. apply removelast_last. Qed.

Lemma order_grandparent uid orderId : parent (parent (order_ref uid orderId)) = user_ref uid.
Proof. reflexivity. Qed.

(** ** Running the promise chains *)

Ltac flatten_trace := rewrite <- ?List.app_assoc; cbn [app].

Ltac run_chain :=
  cbv beta iota zeta
    delta [then_or and_then catch once_value call emit ref_set ref_remove
           resolve reject console_log console_error member];
  cbn [db ext trace app storable is_null].

Section Runs.
Context {X : Type} `{Services X} (cfg : config).

Lemma reportError_run err context (w : world X) :
  reportError cfg err context w =
    let '(ack, x') := log_write logName (metadata cfg) (errorEvent cfg err context) (ext w) in
    (reported ack,
     mk_world (db w) x'
       (trace w ++ [LogWrite logName (metadata cfg) (errorEvent cfg err context)])).
Proof.
  unfold reportError.
  destruct (log_write _ _ _ _) as [ack x']. reflexivity.
Qed.

(** The whole of [createStripeCharge] on a value that passes the guard. *)
Lemma createStripeCharge_run val userId id (w : world X) :
  is_null val || truthy (prop val "id") || truthy (prop val "error") = false ->
  createStripeCharge cfg val userId id w =
    let customer := db_get (customer_id_ref userId) (db w) in
    let charge := charge_of cfg val customer in
    let context := JObj {[ "user" := JStr userId ]} in
    let before := [DbOnce (customer_id_ref userId); ChargesCreate charge id] in
    match charges_create charge id (ext w) with
    | (Fulfilled response, x') =>
        if storable response then
          (Fulfilled None,
           mk_world (db_write (charge_ref userId id) response (db w)) x'
             (trace w ++ before ++ [DbSet (charge_ref userId id) response]))
        else
          (Rejected (set_refused (charge_ref userId id) (Some response)),
           mk_world (db w) x' (trace w ++ before))
    | (Rejected error, x') =>
        let errorRef := child_ref (charge_ref userId id) "error" in
        let message := JStr (userFacingMessage error) in
        let '(ack, x'') :=
          log_write logName (metadata cfg) (errorEvent cfg error context) x' in
        (reported ack,
         mk_world (db_write errorRef message (db w)) x''
           (trace w ++ before ++
              [DbSet errorRef message;
               LogWrite logName (metadata cfg) (errorEvent cfg error context)]))
    end.
Proof.
  intros Hguard. unfold createStripeCharge. rewrite Hguard. run_chain.
  destruct (charges_create _ _ _) as [[response|error] x']; run_chain.
  - destruct (storable response); run_chain; flatten_trace; reflexivity.
  - rewrite reportError_run. run_chain.
    destruct (log_write _ _ _ _) as [ack x'']. flatten_trace. reflexivity.
Qed.

(** The whole of [addPaymentSource] on a token that is not [null]. *)
Lemma addPaymentSource_run source userId pushId (w : world X) :
  is_null source = false ->
  addPaymentSource cfg source userId pushId w =
    let customer := db_get (customer_id_ref userId) (db w) in
    let params := [("source", Some source)] in
    let context := JObj {[ "user" := JStr userId ]} in
    let record := parent (token_ref userId pushId) in
    let before :=
      [DbOnce (customer_id_ref userId); CustomersCreateSource customer params] in
    match customers_createSource customer params (ext w) with
    | (Fulfilled response, x') =>
        if storable response then
          (Fulfilled None,
           mk_world (db_write record response (db w)) x'
             (trace w ++ before ++ [DbSet record response]))
        else
          (Rejected (set_refused record (Some response)),
           mk_world (db w) x' (trace w ++ before))
    | (Rejected error, x') =>
        let errorRef := child_ref record "error" in
        let message := JStr (userFacingMessage error) in
        let '(ack, x'') :=
          log_write logName (metadata cfg) (errorEvent cfg error context) x' in
        (reported ack,
         mk_world (db_write errorRef message (db w)) x''
           (trace w ++ before ++
              [DbSet errorRef message;
               LogWrite logName (metadata cfg) (errorEvent cfg error context)]))
    end.
Proof.
  intros Hsource. unfold addPaymentSource. rewrite Hsource. run_chain.
  destruct (customers_createSource _ _ _) as [[response|error] x']; run_chain.
  - destruct (storable response); run_chain; flatten_trace; reflexivity.
  - rewrite reportError_run. run_chain.
    destruct (log_write _ _ _ _) as [ack x'']. flatten_trace. reflexivity.
Qed.

(** The whole of [cleanupUser]. *)
Lemma cleanupUser_run uid (w : world X) :
  cleanupUser uid w =
    let record := stripe_customers uid in
    let customer := db_get record (db w) in
    match customers_del customer (ext w) with
    | (Fulfilled _, x') =>
        (Fulfilled None,
         mk_world (db_write record JNull (db w)) x'
           (trace w ++ [DbOnce record; CustomersDel customer; DbRemove record]))
    | (Rejected e, x') =>
        (Rejected e,
         mk_world (db w) x' (trace w ++ [DbOnce record; CustomersDel customer]))
    end.
Proof.
  unfold cleanupUser. run_chain.
  destruct (customers_del _ _) as [[response|e] x']; run_chain;
    flatten_trace; reflexivity.
Qed.

End Runs.

(** ** The charge orchestrator *)

Section ChargeOrchestrator.
Context {X : Type} `{Services X} (cfg : config).

(** C1, as amended: on a write whose new value is [null], or whose [id]
    or [error] field is truthy, [createStripeCharge] returns [null] and
    leaves the world as it found it: no provider call, no write-back,
    nothing logged.  (The guard tests what the fields hold, not that they
    are there, see [createStripeCharge_empty_error_charged].) *)
Theorem createStripeCharge_noop val userId id (w : world X) :
  val = JNull \/ truthy (prop val "id") = true \/ truthy (prop val "error") = true ->
  createStripeCharge cfg val userId id w = (Fulfilled (Some JNull), w).
Proof.
  intros Hval. unfold createStripeCharge.
  assert (is_null val || truthy (prop val "id") || truthy (prop val "error") = true) as ->.
  { destruct Hval as [-> | [E | E]]; [reflexivity | rewrite E | rewrite E];
      rewrite ?orb_true_r; reflexivity. }
  reflexivity.
Qed.

Lemma currency_chosen (chosen : json) :
  (stripe_currency cfg = Some chosen /\ truthy (Some chosen) = true)
  \/ (truthy (stripe_currency cfg) = false /\ chosen = JStr "USD") ->
  currency cfg = chosen.
Proof.
  unfold currency, js_or. intros [[-> ->] | [Hunset ->]]; [reflexivity|].
  destruct (stripe_currency cfg); [rewrite Hunset|]; reflexivity.
Qed.

(** C2: for the fresh request [{amount: 500, source: null}] of an account
    whose customer id is ["cus_123"], the handler reads the customer id and
    submits [{amount: 500, currency, customer: "cus_123"}] with the
    request's id as idempotency key, where [currency] is the currency of
    the configuration when one is set (and truthy) and ["USD"] when none
    is; when the provider answers with a [response] the database takes,
    it sets the request's own node to [response] and resolves. *)
Theorem createStripeCharge_fresh_success userId id (w : world X) response x' chosen :
  let val := JObj {[ "amount" := JNum 500; "source" := JNull ]} in
  let charge :=
    [("amount", Some (JNum 500)); ("currency", Some chosen);
     ("customer", Some (JStr "cus_123"))] in
  (stripe_currency cfg = Some chosen /\ truthy (Some chosen) = true)
  \/ (truthy (stripe_currency cfg) = false /\ chosen = JStr "USD") ->
  db_get (customer_id_ref userId) (db w) = JStr "cus_123" ->
  charges_create charge id (ext w) = (Fulfilled response, x') ->
  storable response = true ->
  createStripeCharge cfg val userId id w =
    (Fulfilled None,
     mk_world (db_write (charge_ref userId id) response (db w)) x'
       (trace w ++
          [DbOnce (customer_id_ref userId);
           ChargesCreate charge id;
           DbSet (charge_ref userId id) response])).
Proof.
  intros val charge Hchosen Hcustomer Hcharge Hstorable.
  rewrite createStripeCharge_run by (vm_compute; reflexivity).
  cbv zeta. rewrite Hcustomer.
  assert (charge_of cfg val (JStr "cus_123") = charge) as ->.
  { unfold charge_of. rewrite (currency_chosen chosen Hchosen).
    assert (prop val "amount" = Some (JNum 500)) as -> by (vm_compute; reflexivity).
    assert (prop val "source" = Some JNull) as -> by (vm_compute; reflexivity).
    reflexivity. }
  rewrite Hcharge, Hstorable. reflexivity.
Qed.

(** C3: when the provider rejects the charge of a fresh request with
    [error] and the log write is acknowledged, the handler sets the child
    [error] of the request's node to [userFacingMessage error], writes
    one log entry built from the raw error with context [{user: userId}],
    and resolves; the [error] child then reads as the sanitized
    message. *)
Theorem createStripeCharge_rejection_recorded val userId id (w : world X) error x' x'' :
  let customer := db_get (customer_id_ref userId) (db w) in
  let charge := charge_of cfg val customer in
  let context := JObj {[ "user" := JStr userId ]} in
  let errorRef := child_ref (charge_ref userId id) "error" in
  let message := JStr (userFacingMessage error) in
  is_null val || truthy (prop val "id") || truthy (prop val "error") = false ->
  charges_create charge id (ext w) = (Rejected error, x') ->
  log_write logName (metadata cfg) (errorEvent cfg error context) x' = (None, x'') ->
  createStripeCharge cfg val userId id w =
    (Fulfilled None,
     mk_world (db_write errorRef message (db w)) x''
       (trace w ++
          [DbOnce (customer_id_ref userId);
           ChargesCreate charge id;
           DbSet errorRef message;
           LogWrite logName (metadata cfg) (errorEvent cfg error context)]))
  /\ db_get errorRef (db_write errorRef message (db w)) = message
  /\ parent errorRef = charge_ref userId id.
Proof.
  intros customer charge context errorRef message Hfresh Hcharge Hlog.
  split; [|split].
  - rewrite createStripeCharge_run by exact Hfresh.
    cbv zeta. fold customer charge context errorRef message.
    rewrite Hcharge, Hlog. reflexivity.
  - apply db_get_write_text.
  - apply parent_child_ref.
Qed.

End ChargeOrchestrator.

(** ** The sanitizer *)

(** C4: [userFacingMessage] returns [error.message] when the error
    carries a [type] (one that is truthy, as the provider's are) and the
    fallback string otherwise, so an error with no [type] gets the
    fallback, never its own message. *)
Theorem userFacingMessage_by_type (error : js_error) :
  (truthy (err_type error) = true -> userFacingMessage error = err_message error)
  /\ (truthy (err_type error) = false -> userFacingMessage error = fallback_message)
  /\ (err_type error = None -> userFacingMessage error = fallback_message).
Proof.
  unfold userFacingMessage. split; [|split].
  - intros ->. reflexivity.
  - intros ->. reflexivity.
  - intros ->. reflexivity.
Qed.

(** ** The payment-source orchestrator *)

Section SourceOrchestrator.
Context {X : Type} `{Services X} (cfg : config).

(** C7: on a write of a source token, [addPaymentSource] does nothing
    when the token is [null]; otherwise it reads the customer id, calls
    [createSource] on that customer with the token, and sets the parent
    of the token node to the provider's response, or the [error] child
    of that parent to the sanitized message of a rejection (which it
    then reports).  Neither place is the token leaf.  A response the
    database client does not take is written nowhere: [set] throws and
    the invocation is rejected. *)
Theorem addPaymentSource_writes_parent source userId pushId (w : world X) :
  let token := token_ref userId pushId in
  let record := parent token in
  let errorRef := child_ref record "error" in
  let customer := db_get (customer_id_ref userId) (db w) in
  let params := [("source", Some source)] in
  let context := JObj {[ "user" := JStr userId ]} in
  let before :=
    [DbOnce (customer_id_ref userId); CustomersCreateSource customer params] in
  (record <> token /\ errorRef <> token)
  /\ match source with
     | JNull => addPaymentSource cfg source userId pushId w = (Fulfilled (Some JNull), w)
     | _ =>
       match customers_createSource customer params (ext w) with
       | (Fulfilled response, x') =>
           addPaymentSource cfg source userId pushId w =
             if storable response then
               (Fulfilled None,
                mk_world (db_write record response (db w)) x'
                  (trace w ++ before ++ [DbSet record response]))
             else
               (Rejected (set_refused record (Some response)),
                mk_world (db w) x' (trace w ++ before))
       | (Rejected error, x') =>
           let message := JStr (userFacingMessage error) in
           let entry := errorEvent cfg error context in
           let '(ack, x'') := log_write logName (metadata cfg) entry x' in
           addPaymentSource cfg source userId pushId w =
             (reported ack,
              mk_world (db_write errorRef message (db w)) x''
                (trace w ++ before ++
                   [DbSet errorRef message; LogWrite logName (metadata cfg) entry]))
       end
     end.
Proof.
  intros token record errorRef customer params context before.
  split.
  - split; intros E; discriminate E.
  - assert (is_null source = false ->
            addPaymentSource cfg source userId pushId w = _) as Hrun
      by exact (addPaymentSource_run cfg source userId pushId w).
    cbv zeta in Hrun.
    fold token record errorRef customer params context before in Hrun.
    destruct source; try reflexivity;
      (specialize (Hrun eq_refl);
       destruct (customers_createSource customer params (ext w)) as [[response|error] x'];
       [exact Hrun|];
       cbv zeta;
       destruct (log_write logName (metadata cfg) (errorEvent cfg error context) x')
         as [ack x''];
       exact Hrun).
Qed.

End SourceOrchestrator.

(** ** The customer registry *)

Section CustomerRegistry.
Context {X : Type} `{Services X}.

Lemma createTheStripeCustomer_run uid email (w : world X) customer x' c :
  customers_create [("email", email)] (ext w) = (Fulfilled customer, x') ->
  prop customer "id" = Some c ->
  storable c = true ->
  createTheStripeCustomer uid email w =
    (Fulfilled None,
     mk_world (db_write (customer_id_ref uid) c (db w)) x'
       (trace w ++ [CustomersCreate [("email", email)]; DbSet (customer_id_ref uid) c])).
Proof.
  intros Hcreate Hid Hstorable. unfold createTheStripeCustomer. run_chain.
  rewrite Hcreate. run_chain.
  assert (is_null customer = false) as ->
    by (destruct customer; try reflexivity; discriminate Hid).
  rewrite Hid, Hstorable. run_chain. flatten_trace. reflexivity.
Qed.

(** X17: what [cleanupUser] hands to the provider after a registration is
    the node that holds the customer id, not the customer id. *)
Lemma cleanupUser_after_create_passes_record uid email (w : world X) customer x' c :
  customers_create [("email", email)] (ext w) = (Fulfilled customer, x') ->
  prop customer "id" = Some (JStr c) ->
  let w1 := snd (createTheStripeCustomer uid email w) in
  let passed := db_get (stripe_customers uid) (db w1) in
  prop passed "customer_id" = Some (JStr c)
  /\ passed <> JStr c
  /\ List.filter provider_call (trace (snd (cleanupUser uid w1))) =
       List.filter provider_call (trace w1) ++ [CustomersDel passed].
Proof.
  intros Hcreate Hid w1 passed.
  assert (child passed "customer_id" = JStr c) as Hchild.
  { unfold passed, w1.
    rewrite (createTheStripeCustomer_run uid email w customer x' (JStr c)
               Hcreate Hid eq_refl).
    cbn [snd db].
    change (child (db_get (stripe_customers uid) ?r) "customer_id")
      with (db_get (stripe_customers uid ++ ["customer_id"]) r).
    apply (db_get_write_text (customer_id_ref uid)). }
  assert (prop passed "customer_id" = Some (JStr c)) as Hprop.
  { unfold child in Hchild. destruct passed; try discriminate Hchild.
    simpl in *. destruct (fields !! "customer_id"); [|discriminate Hchild].
    simpl in Hchild. congruence. }
  split; [exact Hprop|]. split.
  - intros E. rewrite E in Hprop. discriminate Hprop.
  - rewrite cleanupUser_run. cbv zeta. fold passed.
    destruct (customers_del passed (ext w1)) as [[response|e] x1]; cbn [snd trace];
      rewrite List.filter_app; reflexivity.
Qed.

(** C5, as amended: an account with no customer id stored is not passed
    over.  [cleanupUser] still makes one call to the provider's
    [customers.del], and completes without error only when that call is
    fulfilled: when it is rejected, the invocation is rejected with the
    same error. *)
Theorem cleanupUser_without_record_not_skipped uid (w : world X) :
  db_get (customer_id_ref uid) (db w) = JNull ->
  exists customer,
    List.filter provider_call (trace (snd (cleanupUser uid w))) =
      List.filter provider_call (trace w) ++ [CustomersDel customer]
    /\ fst (cleanupUser uid w) =
         match fst (customers_del customer (ext w)) with
         | Fulfilled _ => Fulfilled None
         | Rejected e => Rejected e
         end.
Proof.
  intros _. exists (db_get (stripe_customers uid) (db w)).
  rewrite cleanupUser_run. cbv zeta.
  destruct (customers_del _ (ext w)) as [[response|e] x']; cbn [fst snd trace];
    rewrite List.filter_app; split; reflexivity.
Qed.

(** C6: [cleanupUser] calls the provider's deletion before it removes
    the local record, and removes the record only when that call is
    fulfilled (nothing is then read at the record's place): when the
    provider rejects, the handler rejects with the same error, the
    database is as it was and no removal was issued. *)
Theorem cleanupUser_deletes_provider_first uid (w : world X) :
  let record := stripe_customers uid in
  let customer := db_get record (db w) in
  let outcome := fst (cleanupUser uid w) in
  let w' := snd (cleanupUser uid w) in
  match fst (customers_del customer (ext w)) with
  | Fulfilled _ =>
      outcome = Fulfilled None
      /\ trace w' = trace w ++ [DbOnce record; CustomersDel customer; DbRemove record]
      /\ db w' = db_write record JNull (db w)
      /\ db_get record (db w') = JNull
  | Rejected e =>
      outcome = Rejected e
      /\ trace w' = trace w ++ [DbOnce record; CustomersDel customer]
      /\ db w' = db w
  end.
Proof.
  intros record customer outcome w'. unfold outcome, w'.
  rewrite cleanupUser_run. cbv zeta. fold record customer.
  destruct (customers_del customer (ext w)) as [[response|e] x']; cbn [fst snd trace db];
    repeat split; try reflexivity.
  apply db_get_removed.
Qed.

End CustomerRegistry.

(** ** The mail handlers *)

Section Mail.
Context {X : Type} `{Services X} (cfg : config).

Lemma send_and_log_run mailOptions text to (w : world X) :
  send_and_log mailOptions text to w =
    let '(answer, x') := sendMail mailOptions (ext w) in
    (Fulfilled None,
     mk_world (db w) x'
       (trace w ++
          [SendMail mailOptions;
           match answer with
           | Fulfilled _ => ConsoleLog text to
           | Rejected e => ConsoleError "There was an error while sending the email:" e
           end])).
Proof.
  unfold send_and_log. run_chain.
  destruct (sendMail mailOptions (ext w)) as [[info|e] x']; run_chain;
    flatten_trace; reflexivity.
Qed.

Lemma mails_after_send (t : list event) mailOptions (e : event) :
  mail_sent e = false ->
  List.filter mail_sent (t ++ [SendMail mailOptions; e]) =
    List.filter mail_sent t ++ [SendMail mailOptions].
Proof. intros He. rewrite List.filter_app. cbn [List.filter mail_sent]. rewrite He. reflexivity. Qed.

(** C9, as amended: a write at [/admins/{id}] that changes the record and
    leaves a value other than [null] whose [active] field is falsy makes
    [sendEmailConfirmation] send one mail, to the record's [email], with
    the subject of the admin confirmation; a change that leaves [active]
    truthy sends none. *)
Theorem sendEmailConfirmation_mail_when_inactive snapshot (w : world X) :
  let val := snap_val snapshot in
  let sent := List.filter mail_sent (trace (snd (sendEmailConfirmation cfg snapshot w))) in
  snap_changed snapshot "active" = true ->
  is_null val = false ->
  if truthy (prop val "active")
  then sent = List.filter mail_sent (trace w)
  else exists mailOptions,
         sent = List.filter mail_sent (trace w) ++ [SendMail mailOptions]
         /\ field mailOptions "to" = prop val "email"
         /\ field mailOptions "subject" = Some (JStr "Admin Confirmation").
Proof.
  intros val sent Hchanged Hval. unfold sent, sendEmailConfirmation. fold val.
  rewrite Hchanged. unfold member. rewrite Hval.
  run_chain. destruct (truthy (prop val "active")); [reflexivity|].
  cbn [negb]. eexists. rewrite send_and_log_run.
  destruct (sendMail _ (ext w)) as [[info|e] x']; cbn [snd trace];
    (split; [apply mails_after_send; reflexivity | split; reflexivity]).
Qed.

(** C10: when an order exists at [/users/{uid}/orders/{orderId}] and the
    [email] of the user's record is missing or falsy,
    [sendOrderConfirmation] reads the user's record, sends no mail and
    resolves. *)
Theorem sendOrderConfirmation_no_email uid orderId (w : world X) :
  db_get (order_ref uid orderId) (db w) <> JNull ->
  truthy (prop (db_get (user_ref uid) (db w)) "email") = false ->
  sendOrderConfirmation cfg uid orderId w = (Fulfilled None, emit (DbOnce (user_ref uid)) w)
  /\ List.filter mail_sent (trace (emit (DbOnce (user_ref uid)) w)) =
       List.filter mail_sent (trace w).
Proof.
  intros Horder Hemail. split.
  - unfold sendOrderConfirmation. rewrite order_grandparent. run_chain.
    unfold member.
    destruct (is_null (db_get (user_ref uid) (db w))) eqn:Huser.
    + exfalso. apply Horder. apply (db_get_below (user_ref uid)).
      destruct (db_get (user_ref uid) (db w)); try discriminate Huser. reflexivity.
    + run_chain. rewrite Hemail. reflexivity.
  - unfold emit. cbn [trace]. rewrite List.filter_app. cbn [List.filter mail_sent].
    apply List.app_nil_r.
Qed.

End Mail.

(** ** The handlers against the test double *)

(** Counterexample to C1 as written: a request whose [error] field holds
    the empty string contains an [error] field, yet the handler charges
    the customer and writes the response over the record. *)
Lemma createStripeCharge_empty_error_charged :
  let val := JObj {[ "amount" := JNum 500; "error" := JStr EmptyString ]} in
  let w' := snd (createStripeCharge Double.cfg val "u1" "c1" (Double.registered false)) in
  has_field val "error"
  /\ List.filter provider_call (trace w') =
       [ChargesCreate
          [("amount", Some (JNum 500)); ("currency", Some (JStr "USD"));
           ("customer", Some (JStr "cus_123")); ("source", None)] "c1"]
  /\ List.filter db_update (trace w') =
       [DbSet (charge_ref "u1" "c1")
          (JObj {[ "id" := JStr "ch_c1"; "customer" := JStr "cus_123" ]})].
Proof.
  split; [|split].
  - exists (JStr EmptyString). vm_compute. reflexivity.
  - vm_compute. reflexivity.
  - vm_compute. reflexivity.
Qed.

Lemma createStripeCharge_noop_witness :
  let val := JObj {[ "amount" := JNum 500; "id" := JStr "ch_1" ]} in
  truthy (prop val "id") = true
  /\ createStripeCharge Double.cfg val "u1" "c1" (Double.registered false) =
       (Fulfilled (Some JNull), Double.registered false).
Proof.
  intros val.
  assert (truthy (prop val "id") = true) as Hid by (vm_compute; reflexivity).
  split; [exact Hid|].
  apply createStripeCharge_noop. right; left. exact Hid.
Defined.

Lemma createStripeCharge_fresh_success_witness :
  let euro := mk_config (Some (JStr "EUR")) "createStripeCharge" "fireshop" in
  let val := JObj {[ "amount" := JNum 500; "source" := JNull ]} in
  let w := Double.registered false in
  let response := JObj {[ "id" := JStr "ch_c1"; "customer" := JStr "cus_123" ]} in
  let w' := snd (createStripeCharge euro val "u1" "c1" w) in
  stripe_currency euro = Some (JStr "EUR")
  /\ db_get (customer_id_ref "u1") (db w) = JStr "cus_123"
  /\ fst (createStripeCharge euro val "u1" "c1" w) = Fulfilled None
  /\ List.filter provider_call (trace w') =
       [ChargesCreate
          [("amount", Some (JNum 500)); ("currency", Some (JStr "EUR"));
           ("customer", Some (JStr "cus_123"))] "c1"]
  /\ db_get (charge_ref "u1" "c1") (db w') = response.
Proof.
  intros euro val w response w'.
  assert (db_get (customer_id_ref "u1") (db w) = JStr "cus_123") as Hcustomer
    by (vm_compute; reflexivity).
  assert (charges_create
            [("amount", Some (JNum 500)); ("currency", Some (JStr "EUR"));
             ("customer", Some (JStr "cus_123"))] "c1" (ext w) =
          (Fulfilled response, ext w)) as Hcharge by (vm_compute; reflexivity).
  assert (storable response = true) as Hstorable by (vm_compute; reflexivity).
  split; [reflexivity|]. split; [exact Hcustomer|].
  unfold w', val.
  rewrite (createStripeCharge_fresh_success euro "u1" "c1" w response (ext w) (JStr "EUR")
             (or_introl (conj eq_refl eq_refl)) Hcustomer Hcharge Hstorable).
  split; [reflexivity|]. split; vm_compute; reflexivity.
Defined.

Lemma createStripeCharge_rejection_recorded_witness :
  let val := JObj {[ "amount" := JNum 500 ]} in
  let w := Double.registered true in
  let w' := snd (createStripeCharge Double.cfg val "u1" "c1" w) in
  fst (createStripeCharge Double.cfg val "u1" "c1" w) = Fulfilled None
  /\ db_get (charge_ref "u1" "c1" ++ ["error"]) (db w') = JStr "Your card was declined."
  /\ List.filter provider_call (trace w') =
       [ChargesCreate
          [("amount", Some (JNum 500)); ("currency", Some (JStr "USD"));
           ("customer", Some (JStr "cus_123")); ("source", None)] "c1"].
Proof.
  intros val w w'.
  assert (is_null val || truthy (prop val "id") || truthy (prop val "error") = false)
    as Hfresh by (vm_compute; reflexivity).
  assert (charges_create
            (charge_of Double.cfg val (db_get (customer_id_ref "u1") (db w))) "c1" (ext w) =
          (Rejected Double.card_declined, ext w)) as Hcharge by (vm_compute; reflexivity).
  assert (log_write logName (metadata Double.cfg)
            (errorEvent Double.cfg Double.card_declined (JObj {[ "user" := JStr "u1" ]}))
            (ext w) = (None, ext w)) as Hlog by reflexivity.
  destruct (createStripeCharge_rejection_recorded Double.cfg val "u1" "c1" w
              Double.card_declined (ext w) (ext w) Hfresh Hcharge Hlog)
    as (Hrun & Hread & _).
  unfold w'. rewrite Hrun. split; [reflexivity|]. split.
  - exact Hread.
  - vm_compute. reflexivity.
Defined.

Lemma userFacingMessage_by_type_witness :
  userFacingMessage Double.card_declined = "Your card was declined."
  /\ userFacingMessage Faulty.unavailable = fallback_message
  /\ userFacingMessage (mk_error None "boom" "Error: boom") = fallback_message.
Proof.
  split; [|split].
  - apply (proj1 (userFacingMessage_by_type Double.card_declined)). reflexivity.
  - apply (proj1 (proj2 (userFacingMessage_by_type Faulty.unavailable))). reflexivity.
  - apply (proj2 (proj2 (userFacingMessage_by_type (mk_error None "boom" "Error: boom")))).
    reflexivity.
Defined.

(** Counterexample to C5 as written: for an account with nothing stored
    under [/stripe_customers], so with no customer id, the handler is not
    done at once: it calls [customers.del], with [null] for the customer,
    and fails with the error of that call. *)
Lemma cleanupUser_without_record_calls_provider :
  let w' := snd (cleanupUser "u1" Double.start) in
  db_get (customer_id_ref "u1") (db Double.start) = JNull
  /\ List.filter provider_call (trace w') = [CustomersDel JNull]
  /\ fst (cleanupUser "u1" Double.start) = Rejected Double.no_such_customer.
Proof. repeat split; vm_compute; reflexivity. Qed.

Lemma cleanupUser_without_record_not_skipped_witness :
  db_get (customer_id_ref "u1") (db Double.start) = JNull
  /\ exists customer,
       List.filter provider_call (trace (snd (cleanupUser "u1" Double.start))) =
         List.filter provider_call (trace Double.start) ++ [CustomersDel customer]
       /\ fst (cleanupUser "u1" Double.start) =
            match fst (customers_del customer (ext Double.start)) with
            | Fulfilled _ => Fulfilled None
            | Rejected e => Rejected e
            end.
Proof.
  split; [reflexivity|].
  exact (cleanupUser_without_record_not_skipped "u1" Double.start eq_refl).
Defined.

Lemma addPaymentSource_writes_parent_witness :
  let stored declining :=
    mk_world
      (db_write (token_ref "u1" "s1") (JStr "tok_visa") (db (Double.registered declining)))
      (ext (Double.registered declining)) [] in
  let accepted := snd (addPaymentSource Double.cfg (JStr "tok_visa") "u1" "s1" (stored false)) in
  let declined := snd (addPaymentSource Double.cfg (JStr "tok_visa") "u1" "s1" (stored true)) in
  db_get (token_ref "u1" "s1") (db (stored false)) = JStr "tok_visa"
  /\ List.filter db_update (trace accepted) =
       [DbSet ["stripe_customers"; "u1"; "sources"; "s1"]
          (JObj {[ "id" := JStr "card_1"; "customer" := JStr "cus_123" ]})]
  /\ db_get ["stripe_customers"; "u1"; "sources"; "s1"; "id"] (db accepted) = JStr "card_1"
  /\ List.filter db_update (trace declined) =
       [DbSet ["stripe_customers"; "u1"; "sources"; "s1"; "error"]
          (JStr "Your card was declined.")]
  /\ db_get ["stripe_customers"; "u1"; "sources"; "s1"; "error"] (db declined) =
       JStr "Your card was declined."
  /\ db_get (token_ref "u1" "s1") (db declined) = JStr "tok_visa".
Proof.
  intros stored accepted declined.
  pose proof (proj2 (addPaymentSource_writes_parent Double.cfg (JStr "tok_visa") "u1" "s1"
                       (stored false))) as Haccepted.
  pose proof (proj2 (addPaymentSource_writes_parent Double.cfg (JStr "tok_visa") "u1" "s1"
                       (stored true))) as Hdeclined.
  assert (customers_createSource (db_get (customer_id_ref "u1") (db (stored false)))
            [("source", Some (JStr "tok_visa"))] (ext (stored false)) =
          (Fulfilled (JObj {[ "id" := JStr "card_1"; "customer" := JStr "cus_123" ]}),
           ext (stored false)))
    as Hcall by (vm_compute; reflexivity).
  assert (customers_createSource (db_get (customer_id_ref "u1") (db (stored true)))
            [("source", Some (JStr "tok_visa"))] (ext (stored true)) =
          (Rejected Double.card_declined, ext (stored true)))
    as Hrefusal by (vm_compute; reflexivity).
  cbv zeta in Haccepted, Hdeclined.
  rewrite Hcall in Haccepted. rewrite Hrefusal in Hdeclined.
  unfold accepted, declined. rewrite Haccepted, Hdeclined.
  repeat split; vm_compute; reflexivity.
Defined.

(** C8, on the code: an account is created and then deleted.  The
    registration stores ["cus_0"] under [customer_id]; the deletion reads
    the node above it and hands that object to [customers.del], the
    provider finds no such customer, and both the provider's customer and
    the local record remain. *)
Theorem create_then_cleanup_keeps_customer :
  let w1 := snd (createTheStripeCustomer "u1" (Some (JStr "a@b.c")) Double.start) in
  let w2 := snd (cleanupUser "u1" w1) in
  db_get (customer_id_ref "u1") (db w1) = JStr "cus_0"
  /\ Double.customers (ext w1) = ["cus_0"]
  /\ List.filter provider_call (trace w2) =
       [CustomersCreate [("email", Some (JStr "a@b.c"))];
        CustomersDel (JObj {[ "customer_id" := JStr "cus_0" ]})]
  /\ fst (cleanupUser "u1" w1) = Rejected Double.no_such_customer
  /\ db_get (customer_id_ref "u1") (db w2) = JStr "cus_0"
  /\ Double.customers (ext w2) = ["cus_0"].
Proof. repeat split; vm_compute; reflexivity. Qed.

(** Counterexample to C9 as written: the record of an admin changes, its
    [active] field becoming [true], and no mail is sent. *)
Lemma sendEmailConfirmation_activation_sends_nothing :
  let snapshot :=
    mk_snapshot (JObj {[ "email" := JStr "a@b.c"; "active" := JBool true ]}) true in
  snap_changed snapshot "active" = true
  /\ List.filter mail_sent
       (trace (snd (sendEmailConfirmation Double.cfg snapshot Double.start))) = [].
Proof. split; vm_compute; reflexivity. Qed.

Lemma sendEmailConfirmation_mail_when_inactive_witness :
  let snapshot :=
    mk_snapshot (JObj {[ "email" := JStr "a@b.c"; "active" := JBool false ]}) true in
  exists mailOptions,
    List.filter mail_sent
      (trace (snd (sendEmailConfirmation Double.cfg snapshot Double.start))) =
      [SendMail mailOptions]
    /\ field mailOptions "to" = Some (JStr "a@b.c")
    /\ field mailOptions "subject" = Some (JStr "Admin Confirmation").
Proof.
  intros snapshot.
  pose proof (sendEmailConfirmation_mail_when_inactive Double.cfg snapshot Double.start
                eq_refl eq_refl) as Hmail.
  assert (truthy (prop (snap_val snapshot) "active") = false) as Hinactive
    by (vm_compute; reflexivity).
  rewrite Hinactive in Hmail.
  destruct Hmail as (mailOptions & Hsent & Hto & Hsubject).
  exists mailOptions. split; [exact Hsent|]. split; [|exact Hsubject].
  rewrite Hto. vm_compute. reflexivity.
Defined.

Lemma sendOrderConfirmation_no_email_witness :
  let w := mk_world (db_write (order_ref "u1" "o1") (JObj {[ "total" := JNum 5 ]}) JNull)
             (Double.mk_state [] 0 false) [] in
  db_get (order_ref "u1" "o1") (db w) <> JNull
  /\ sendOrderConfirmation Double.cfg "u1" "o1" w =
       (Fulfilled None, emit (DbOnce (user_ref "u1")) w).
Proof.
  intros w.
  assert (db_get (order_ref "u1" "o1") (db w) <> JNull) as Horder
    by (vm_compute; discriminate).
  split; [exact Horder|].
  apply (sendOrderConfirmation_no_email Double.cfg "u1" "o1" w Horder).
  vm_compute. reflexivity.
Defined.

(** * Further properties *)

(** ** The database: a write is local *)

Lemma truthy_prop_child v k : truthy (prop v k) = truthy (Some (child v k)).
Proof.
  unfold child. destruct v; simpl; rewrite ?lookup_empty; try reflexivity.
  destruct (fields !! k); reflexivity.
Qed.

Lemma child_prop v k x : x <> JNull -> child v k = x -> prop v k = Some x.
Proof.
  intros Hx E. unfold child in E. destruct v; simpl in *;
    rewrite ?lookup_empty in E; simpl in E; try congruence.
  destruct (fields !! k); simpl in E; congruence.
Qed.

(** A field that holds a text is a field of the value as the database
    holds it; a field the value does not have is not one of it either. *)
Lemma prop_normalize_text v k (s : string) :
  prop v k = Some (JStr s) -> prop (normalize v) k = Some (JStr s).
Proof.
  destruct v as [| | | |m]; try discriminate. cbn [prop normalize]. intros Hk.
  assert (omap (fun c => kept (normalize c)) m !! k = Some (JStr s)) as Hkept
    by (rewrite lookup_omap, Hk; reflexivity).
  unfold prune. destruct (decide (_ = ∅)) as [E|]; [|exact Hkept].
  rewrite E, lookup_empty in Hkept. discriminate Hkept.
Qed.

Lemma child_normalize_missing v k : prop v k = None -> child (normalize v) k = JNull.
Proof.
  destruct v as [| | | |m]; try reflexivity. cbn [prop normalize]. intros Hk.
  rewrite child_prune, lookup_omap, Hk. reflexivity.
Qed.

(** A place that is neither at or below the place written, nor above it,
    reads as before. *)
Lemma db_get_write_elsewhere (p q : path) x root :
  ¬ p `prefix_of` q -> ¬ q `prefix_of` p ->
  db_get q (db_write p x root) = db_get q root.
Proof.
  revert q root; induction p as [|k p IH]; intros q root Hpq Hqp.
  - exfalso. apply Hpq, prefix_nil.
  - destruct q as [|k' q]; [exfalso; apply Hqp, prefix_nil|].
    cbn [db_write db_get]. rewrite child_prune.
    destruct (decide (k = k')) as [<-|Hne].
    + assert (db_get q (db_write p x (child root k)) = db_get q (child root k)) as IH'.
      { apply IH; intros Hp; [apply Hpq | apply Hqp]; apply prefix_cons; exact Hp. }
      destruct (is_null (db_write p x (child root k))) eqn:E.
      * rewrite lookup_delete_eq. simpl. rewrite <- IH'.
        destruct (db_write p x (child root k)); try discriminate E. reflexivity.
      * rewrite lookup_insert_eq. simpl. exact IH'.
    + destruct (is_null (db_write p x (child root k)));
        [rewrite lookup_delete_ne by exact Hne | rewrite lookup_insert_ne by exact Hne];
        reflexivity.
Qed.

Lemma not_prefix_snoc (p q : path) k :
  ¬ p `prefix_of` q -> ¬ q `prefix_of` p ->
  ¬ (p ++ [k]) `prefix_of` q /\ ¬ q `prefix_of` (p ++ [k]).
Proof.
  intros Hpq Hqp. split.
  - intros [r E]. apply Hpq. exists ([k] ++ r). rewrite E, <- List.app_assoc. reflexivity.
  - intros [r E]. destruct r as [|z r' _] using List.rev_ind.
    + apply Hpq. exists [k]. rewrite List.app_nil_r in E. symmetry. exact E.
    + rewrite List.app_assoc in E. apply List.app_inj_tail in E as [E _].
      apply Hqp. exists r'. exact E.
Qed.

(** A field set on a node is a field of the node, and the other fields of
    the node are as before. *)
Lemma db_get_field_written p k (s : string) root :
  prop (db_get p (db_write (p ++ [k]) (JStr s) root)) k = Some (JStr s).
Proof.
  apply child_prop; [discriminate|].
  change (child (db_get p ?r) k) with (db_get [k] (db_get p r)).
  rewrite <- db_get_app. apply db_get_write_text.
Qed.

Lemma db_get_field_kept p k k' x root :
  k <> k' -> child (db_get p (db_write (p ++ [k]) x root)) k' = child (db_get p root) k'.
Proof.
  intros Hk.
  change (child (db_get p ?r) k') with (db_get [k'] (db_get p r)).
  rewrite <- !db_get_app. apply db_get_write_elsewhere.
  - intros Hp. apply prefix_app_inv, prefix_cons_inv_1 in Hp. exact (Hk Hp).
  - intros Hp. apply prefix_app_inv, prefix_cons_inv_1 in Hp. exact (Hk (eq_sym Hp)).
Qed.

(** ** The charge orchestrator, further *)

Section ChargeFurther.
Context {X : Type} `{Services X} (cfg : config).

(** The database a run of [createStripeCharge] leaves. *)
Lemma createStripeCharge_db val userId id (w : world X) :
  db (snd (createStripeCharge cfg val userId id w)) =
    if is_null val || truthy (prop val "id") || truthy (prop val "error") then db w
    else
      let customer := db_get (customer_id_ref userId) (db w) in
      match fst (charges_create (charge_of cfg val customer) id (ext w)) with
      | Fulfilled response =>
          if storable response then db_write (charge_ref userId id) response (db w)
          else db w
      | Rejected error =>
          db_write (child_ref (charge_ref userId id) "error")
            (JStr (userFacingMessage error)) (db w)
      end.
Proof.
  destruct (is_null val || truthy (prop val "id") || truthy (prop val "error")) eqn:Hguard.
  - unfold createStripeCharge. rewrite Hguard. reflexivity.
  - rewrite createStripeCharge_run by exact Hguard. cbv zeta.
    destruct (charges_create _ _ _) as [[response|error] x']; cbn [fst snd db].
    + destruct (storable response); reflexivity.
    + destruct (log_write _ _ _ _) as [ack x'']. reflexivity.
Qed.

Lemma createStripeCharge_frame val userId id (w : world X) (q : path) :
  ¬ charge_ref userId id `prefix_of` q -> ¬ q `prefix_of` charge_ref userId id ->
  db_get q (db (snd (createStripeCharge cfg val userId id w))) = db_get q (db w).
Proof.
  intros Hpq Hqp. rewrite createStripeCharge_db.
  destruct (is_null val || truthy (prop val "id") || truthy (prop val "error"));
    [reflexivity|].
  cbv zeta. destruct (fst (charges_create _ _ _)) as [response|error].
  - destruct (storable response); [|reflexivity].
    apply db_get_write_elsewhere; assumption.
  - unfold child_ref.
    destruct (not_prefix_snoc (charge_ref userId id) q "error" Hpq Hqp).
    apply db_get_write_elsewhere; assumption.
Qed.

Lemma customer_id_outside_charge userId id :
  ¬ charge_ref userId id `prefix_of` customer_id_ref userId
  /\ ¬ customer_id_ref userId `prefix_of` charge_ref userId id.
Proof. split; intros [r E]; discriminate E. Qed.

(** X1: a run of [createStripeCharge] makes no provider call when the
    value is [null] or has a truthy [id] or [error], and otherwise exactly
    one, [charges.create] of the charge built from the value and the
    stored customer id, with the request's id as idempotency key. *)
Theorem createStripeCharge_provider_calls val userId id (w : world X) :
  let customer := db_get (customer_id_ref userId) (db w) in
  List.filter provider_call (trace (snd (createStripeCharge cfg val userId id w))) =
    List.filter provider_call (trace w) ++
    (if is_null val || truthy (prop val "id") || truthy (prop val "error") then []
     else [ChargesCreate (charge_of cfg val customer) id]).
Proof.
  intros customer.
  destruct (is_null val || truthy (prop val "id") || truthy (prop val "error")) eqn:Hguard.
  - unfold createStripeCharge. rewrite Hguard. cbn [snd resolve].
    symmetry. apply List.app_nil_r.
  - rewrite createStripeCharge_run by exact Hguard. cbv zeta. fold customer.
    destruct (charges_create _ _ _) as [[response|error] x']; cbn [snd trace].
    + destruct (storable response); cbn [snd trace];
        rewrite List.filter_app; cbn [List.filter provider_call app];
        rewrite ?List.app_nil_r; reflexivity.
    + destruct (log_write _ _ _ _) as [ack x'']. cbn [snd trace].
      rewrite List.filter_app. reflexivity.
Qed.

(** X2: when the provider rejects the charge and the log write fails, the
    invocation is rejected with the error of the log write, not with the
    provider's; the sanitized message has been written to the request's
    [error] child all the same. *)
Theorem createStripeCharge_sink_failure val userId id (w : world X) error x' failure x'' :
  let customer := db_get (customer_id_ref userId) (db w) in
  let context := JObj {[ "user" := JStr userId ]} in
  let errorRef := child_ref (charge_ref userId id) "error" in
  is_null val || truthy (prop val "id") || truthy (prop val "error") = false ->
  charges_create (charge_of cfg val customer) id (ext w) = (Rejected error, x') ->
  log_write logName (metadata cfg) (errorEvent cfg error context) x' = (Some failure, x'') ->
  fst (createStripeCharge cfg val userId id w) = Rejected failure
  /\ db_get errorRef (db (snd (createStripeCharge cfg val userId id w))) =
       JStr (userFacingMessage error).
Proof.
  intros customer context errorRef Hfresh Hcharge Hlog.
  rewrite createStripeCharge_run by exact Hfresh. cbv zeta.
  fold customer context errorRef. rewrite Hcharge, Hlog. cbn [fst snd db reported].
  split; [reflexivity|]. apply db_get_write_text.
Qed.

(** X3: there is no guard for a missing customer id: for an account with
    nothing stored at [customer_id], a fresh request is still submitted to
    the provider, with [null] as the customer. *)
Theorem createStripeCharge_missing_customer val userId id (w : world X) :
  is_null val || truthy (prop val "id") || truthy (prop val "error") = false ->
  db_get (customer_id_ref userId) (db w) = JNull ->
  exists charge,
    List.filter provider_call (trace (snd (createStripeCharge cfg val userId id w))) =
      List.filter provider_call (trace w) ++ [ChargesCreate charge id]
    /\ field charge "customer" = Some JNull.
Proof.
  intros Hfresh Hcustomer. exists (charge_of cfg val JNull). split.
  - rewrite createStripeCharge_run by exact Hfresh. cbv zeta. rewrite Hcustomer.
    destruct (charges_create _ _ _) as [[response|error] x']; cbn [snd trace].
    + destruct (storable response); cbn [snd trace];
        rewrite List.filter_app; cbn [List.filter provider_call app];
        rewrite ?List.app_nil_r; reflexivity.
    + destruct (log_write _ _ _ _) as [ack x'']. cbn [snd trace].
      rewrite List.filter_app. reflexivity.
  - reflexivity.
Qed.

(** X4: a redelivered event repeats the request to the provider.  Running
    the handler again on the same fresh value, in the world the first run
    left, submits the same charge under the same idempotency key: the
    first run, however it ended, did not touch the customer id. *)
Theorem createStripeCharge_redelivery val userId id (w : world X) :
  is_null val || truthy (prop val "id") || truthy (prop val "error") = false ->
  let w1 := snd (createStripeCharge cfg val userId id w) in
  let request :=
    ChargesCreate (charge_of cfg val (db_get (customer_id_ref userId) (db w))) id in
  List.filter provider_call (trace w1) = List.filter provider_call (trace w) ++ [request]
  /\ List.filter provider_call (trace (snd (createStripeCharge cfg val userId id w1))) =
       List.filter provider_call (trace w) ++ [request; request].
Proof.
  intros Hfresh w1 request.
  assert (forall w0 : world X,
            List.filter provider_call (trace (snd (createStripeCharge cfg val userId id w0))) =
            List.filter provider_call (trace w0) ++
              [ChargesCreate (charge_of cfg val (db_get (customer_id_ref userId) (db w0))) id])
    as Hcalls.
  { intros w0. rewrite createStripeCharge_run by exact Hfresh. cbv zeta.
    destruct (charges_create _ _ _) as [[response|error] x']; cbn [snd trace].
    - destruct (storable response); cbn [snd trace];
        rewrite List.filter_app; cbn [List.filter provider_call app];
        rewrite ?List.app_nil_r; reflexivity.
    - destruct (log_write _ _ _ _) as [ack x'']. cbn [snd trace].
      rewrite List.filter_app. reflexivity. }
  assert (db_get (customer_id_ref userId) (db w1) = db_get (customer_id_ref userId) (db w))
    as Hsame.
  { destruct (customer_id_outside_charge userId id).
    apply createStripeCharge_frame; assumption. }
  split; [apply Hcalls|].
  rewrite (Hcalls w1), Hsame. unfold w1. rewrite (Hcalls w). fold request.
  rewrite <- List.app_assoc. reflexivity.
Qed.

Lemma createStripeCharge_guarded val userId id (w : world X) :
  is_null val || truthy (prop val "id") || truthy (prop val "error") = true ->
  createStripeCharge cfg val userId id w = (Fulfilled (Some JNull), w).
Proof. intros Hguard. unfold createStripeCharge. rewrite Hguard. reflexivity. Qed.

Lemma truthy_text (s : string) : s <> EmptyString -> truthy (Some (JStr s)) = true.
Proof. intros Hs. simpl. apply negb_true_iff, String.eqb_neq, Hs. Qed.

(** X5: the write-back of a rejection ends the processing of the request.
    After the provider has rejected a fresh request with an error whose
    user-facing message is not empty, the request's node carries that
    message as [error], and the handler, run on the node as it now reads,
    does nothing, in whatever world. *)
Theorem createStripeCharge_error_marks_processed val userId id (w : world X) error x' :
  let customer := db_get (customer_id_ref userId) (db w) in
  is_null val || truthy (prop val "id") || truthy (prop val "error") = false ->
  charges_create (charge_of cfg val customer) id (ext w) = (Rejected error, x') ->
  userFacingMessage error <> EmptyString ->
  let val1 := db_get (charge_ref userId id) (db (snd (createStripeCharge cfg val userId id w))) in
  prop val1 "error" = Some (JStr (userFacingMessage error))
  /\ forall w2 : world X,
       createStripeCharge cfg val1 userId id w2 = (Fulfilled (Some JNull), w2).
Proof.
  intros customer Hfresh Hcharge Hmessage val1.
  assert (prop val1 "error" = Some (JStr (userFacingMessage error))) as Herror.
  { unfold val1. rewrite createStripeCharge_db, Hfresh. cbv zeta. fold customer.
    rewrite Hcharge. cbn [fst]. apply db_get_field_written. }
  split; [exact Herror|].
  intros w2. apply createStripeCharge_guarded.
  rewrite Herror, (truthy_text _ Hmessage). apply orb_true_r.
Qed.

(** X6: the write-back of a response ends the processing of the request.
    After the provider has answered a fresh request with a response the
    database takes, whose [id] is a text that is not empty, the request's
    node carries that [id], and the handler, run on the node as it now
    reads, does nothing, in whatever world. *)
Theorem createStripeCharge_response_marks_processed val userId id (w : world X)
    response x' (charge_id : string) :
  let customer := db_get (customer_id_ref userId) (db w) in
  is_null val || truthy (prop val "id") || truthy (prop val "error") = false ->
  charges_create (charge_of cfg val customer) id (ext w) = (Fulfilled response, x') ->
  storable response = true ->
  prop response "id" = Some (JStr charge_id) ->
  charge_id <> EmptyString ->
  let val1 := db_get (charge_ref userId id) (db (snd (createStripeCharge cfg val userId id w))) in
  prop val1 "id" = Some (JStr charge_id)
  /\ forall w2 : world X,
       createStripeCharge cfg val1 userId id w2 = (Fulfilled (Some JNull), w2).
Proof.
  intros customer Hfresh Hcharge Hstorable Hid Hcharged val1.
  assert (prop val1 "id" = Some (JStr charge_id)) as Hid1.
  { unfold val1. rewrite createStripeCharge_db, Hfresh. cbv zeta. fold customer.
    rewrite Hcharge. cbn [fst]. rewrite Hstorable, db_get_written.
    apply prop_normalize_text, Hid. }
  split; [exact Hid1|].
  intros w2. apply createStripeCharge_guarded.
  rewrite Hid1, (truthy_text _ Hcharged), orb_true_r. reflexivity.
Qed.

(** X7: an empty message does not end the processing.  When the stored
    request is the fresh value of the event and the provider rejects it
    with an error that carries a [type] and an empty message, the [error]
    written is the empty string, the node as it now reads passes the
    guard again, and a run on it submits a charge once more. *)
Theorem createStripeCharge_empty_message_reprocessed val userId id (w : world X) error x' :
  let customer := db_get (customer_id_ref userId) (db w) in
  is_null val || truthy (prop val "id") || truthy (prop val "error") = false ->
  db_get (charge_ref userId id) (db w) = val ->
  charges_create (charge_of cfg val customer) id (ext w) = (Rejected error, x') ->
  userFacingMessage error = EmptyString ->
  let w1 := snd (createStripeCharge cfg val userId id w) in
  let val1 := db_get (charge_ref userId id) (db w1) in
  prop val1 "error" = Some (JStr EmptyString)
  /\ is_null val1 || truthy (prop val1 "id") || truthy (prop val1 "error") = false
  /\ List.filter provider_call (trace (snd (createStripeCharge cfg val1 userId id w1))) =
       List.filter provider_call (trace w1) ++
         [ChargesCreate (charge_of cfg val1 customer) id].
Proof.
  intros customer Hfresh Hstored Hcharge Hmessage w1 val1.
  assert (truthy (prop val "id") = false) as Hid.
  { pose proof Hfresh as Hparts.
    apply orb_false_elim in Hparts as [Hparts _].
    apply orb_false_elim in Hparts as [_ Hparts]. exact Hparts. }
  assert (db w1 = db_write (child_ref (charge_ref userId id) "error") (JStr EmptyString) (db w))
    as Hdb.
  { unfold w1. rewrite createStripeCharge_db, Hfresh. cbv zeta. fold customer.
    rewrite Hcharge. cbn [fst]. rewrite Hmessage. reflexivity. }
  assert (prop val1 "error" = Some (JStr EmptyString)) as Herror.
  { unfold val1. rewrite Hdb. apply db_get_field_written. }
  assert (truthy (prop val1 "id") = false) as Hid1.
  { rewrite truthy_prop_child. unfold val1. rewrite Hdb.
    unfold child_ref. rewrite db_get_field_kept by discriminate.
    rewrite Hstored, <- truthy_prop_child. exact Hid. }
  assert (is_null val1 || truthy (prop val1 "id") || truthy (prop val1 "error") = false)
    as Hguard.
  { rewrite Hid1, Herror. destruct val1; try reflexivity. discriminate Herror. }
  split; [exact Herror|]. split; [exact Hguard|].
  rewrite createStripeCharge_run by exact Hguard. cbv zeta.
  assert (db_get (customer_id_ref userId) (db w1) = customer) as ->.
  { destruct (customer_id_outside_charge userId id).
    apply createStripeCharge_frame; assumption. }
  destruct (charges_create (charge_of cfg val1 customer) id (ext w1))
    as [[response|error1] x1]; cbn [snd trace].
  - destruct (storable response); cbn [snd trace];
      rewrite List.filter_app; cbn [List.filter provider_call app];
      rewrite ?List.app_nil_r; reflexivity.
  - destruct (log_write _ _ _ _) as [ack x'']. cbn [snd trace].
    rewrite List.filter_app. reflexivity.
Qed.

(** X8: a run of [createStripeCharge] writes inside the request's node
    only.  Whatever the value and however the provider and the log answer,
    the account's customer id, every other request of the account and
    everything stored for other accounts read as before. *)
Theorem createStripeCharge_leaves_rest val userId id (w : world X) :
  let w1 := snd (createStripeCharge cfg val userId id w) in
  db_get (customer_id_ref userId) (db w1) = db_get (customer_id_ref userId) (db w)
  /\ (forall id' q, id' <> id ->
        db_get (charge_ref userId id' ++ q) (db w1) = db_get (charge_ref userId id' ++ q) (db w))
  /\ (forall userId' q, userId' <> userId ->
        db_get (stripe_customers userId' ++ q) (db w1) =
        db_get (stripe_customers userId' ++ q) (db w)).
Proof.
  intros w1. split; [|split].
  - destruct (customer_id_outside_charge userId id).
    apply createStripeCharge_frame; assumption.
  - intros id' q Hid. apply createStripeCharge_frame;
      intros [r E]; simpl in E; inversion E; congruence.
  - intros userId' q Huser. apply createStripeCharge_frame;
      intros [r E]; simpl in E; inversion E; congruence.
Qed.

End ChargeFurther.

(** ** The payment sources and the registry, further *)

Section RegistryFurther.
Context {X : Type} `{Services X} (cfg : config).

(** X9: what becomes of the token.  When the provider accepts the
    source with a response the database takes, the response replaces the
    whole record: a response with no [token] field leaves nothing at the
    token leaf.  When the provider rejects the source, the token stays as
    it was, and the record carries the sanitized message as [error]. *)
Theorem addPaymentSource_token_after source userId pushId (w : world X) :
  is_null source = false ->
  let customer := db_get (customer_id_ref userId) (db w) in
  let params := [("source", Some source)] in
  let token := token_ref userId pushId in
  let w1 := snd (addPaymentSource cfg source userId pushId w) in
  match fst (customers_createSource customer params (ext w)) with
  | Fulfilled response =>
      storable response = true -> prop response "token" = None ->
      db_get token (db w1) = JNull
  | Rejected error =>
      db_get token (db w1) = db_get token (db w)
      /\ prop (db_get (parent token) (db w1)) "error" = Some (JStr (userFacingMessage error))
  end.
Proof.
  intros Hsource customer params token w1. unfold w1.
  rewrite addPaymentSource_run by exact Hsource. cbv zeta. fold customer params token.
  change token with (parent token ++ ["token"]).
  destruct (customers_createSource customer params (ext w)) as [[response|error] x'];
    cbn [fst snd db].
  - intros Hstorable Htoken. rewrite Hstorable. cbn [snd db].
    rewrite db_get_app, db_get_written. cbn [db_get].
    apply child_normalize_missing, Htoken.
  - destruct (log_write _ _ _ _) as [ack x'']. cbn [snd db]. unfold child_ref. split.
    + rewrite !db_get_app. cbn [db_get].
      apply db_get_field_kept. discriminate.
    + replace (parent (parent token ++ ["token"])) with (parent token)
        by (symmetry; apply (parent_child_ref (parent token) "token")).
      apply db_get_field_written.
Qed.

(** X10: a deletion touches nothing of another account and nothing under
    [/users]: however the provider answers, what is stored for every
    other account, and for every user, reads as before. *)
Theorem cleanupUser_leaves_others uid (w : world X) :
  let w1 := snd (cleanupUser uid w) in
  (forall uid' q, uid' <> uid ->
     db_get (stripe_customers uid' ++ q) (db w1) = db_get (stripe_customers uid' ++ q) (db w))
  /\ (forall uid' q, db_get (user_ref uid' ++ q) (db w1) = db_get (user_ref uid' ++ q) (db w)).
Proof.
  intros w1. unfold w1. rewrite cleanupUser_run. cbv zeta.
  destruct (customers_del _ (ext w)) as [[response|e] x']; cbn [snd db];
    (split; [intros uid' q Huid | intros uid' q]); try reflexivity;
    apply db_get_write_elsewhere; intros [r E]; simpl in E; inversion E; congruence.
Qed.

(** X11: a registration stores nothing unless the provider answers with
    an [id].  When the provider rejects, the handler rejects with the same
    error; when the provider's answer is [null], reading its [id] throws
    the [TypeError]; when the answer has no [id], [set] throws on the
    [undefined] it is handed.  In each case the handler rejects, the one
    call made is [customers.create], and the database is as it was. *)
Theorem createTheStripeCustomer_failures uid email (w : world X) :
  let params := [("email", email)] in
  let answer := customers_create params (ext w) in
  match fst answer with
  | Rejected _ => true
  | Fulfilled customer =>
      match prop customer "id" with
      | None => true
      | Some _ => false
      end
  end = true ->
  exists e,
    createTheStripeCustomer uid email w =
      (Rejected e, mk_world (db w) (snd answer) (trace w ++ [CustomersCreate params]))
    /\ match fst answer with
       | Rejected e' => e = e'
       | Fulfilled customer =>
           if is_null customer then e = type_error "id"
           else e = set_refused (customer_id_ref uid) None
       end.
Proof.
  intros params answer Hfailure. unfold createTheStripeCustomer. run_chain.
  fold params. unfold answer in *.
  destruct (customers_create params (ext w)) as [[customer|e'] x']; cbn [fst snd] in *.
  - destruct (is_null customer) eqn:Hnull.
    + eexists. split; reflexivity.
    + destruct (prop customer "id"); [discriminate Hfailure|].
      eexists. split; reflexivity.
  - eexists. split; reflexivity.
Qed.

(** X12: the customer id a registration stores is the one later requests
    of the account are made with: after a registration answered with the
    id [c], a fresh charge request of the account is submitted for the
    customer [c], and a source token is attached to the customer [c]. *)
Theorem registration_serves_later_requests uid email (w : world X) customer x' c
    val id source pushId :
  customers_create [("email", email)] (ext w) = (Fulfilled customer, x') ->
  prop customer "id" = Some (JStr c) ->
  is_null val || truthy (prop val "id") || truthy (prop val "error") = false ->
  is_null source = false ->
  let w1 := snd (createTheStripeCustomer uid email w) in
  List.filter provider_call (trace (snd (createStripeCharge cfg val uid id w1))) =
    List.filter provider_call (trace w1) ++ [ChargesCreate (charge_of cfg val (JStr c)) id]
  /\ field (charge_of cfg val (JStr c)) "customer" = Some (JStr c)
  /\ List.filter provider_call (trace (snd (addPaymentSource cfg source uid pushId w1))) =
       List.filter provider_call (trace w1) ++
         [CustomersCreateSource (JStr c) [("source", Some source)]].
Proof.
  intros Hcreate Hid Hfresh Hsource w1.
  assert (db_get (customer_id_ref uid) (db w1) = JStr c) as Hstored.
  { unfold w1.
    rewrite (createTheStripeCustomer_run uid email w customer x' (JStr c)
               Hcreate Hid eq_refl).
    cbn [snd db]. apply db_get_write_text. }
  split; [|split].
  - rewrite createStripeCharge_run by exact Hfresh. cbv zeta. rewrite Hstored.
    destruct (charges_create (charge_of cfg val (JStr c)) id (ext w1))
      as [[response|error] x1]; cbn [snd trace].
    + destruct (storable response); cbn [snd trace];
        rewrite List.filter_app; cbn [List.filter provider_call app];
        rewrite ?List.app_nil_r; reflexivity.
    + destruct (log_write _ _ _ _) as [ack x'']. cbn [snd trace].
      rewrite List.filter_app. reflexivity.
  - reflexivity.
  - rewrite addPaymentSource_run by exact Hsource. cbv zeta. rewrite Hstored.
    destruct (customers_createSource (JStr c) [("source", Some source)] (ext w1))
      as [[response|error] x1]; cbn [snd trace].
    + destruct (storable response); cbn [snd trace];
        rewrite List.filter_app; cbn [List.filter provider_call app];
        rewrite ?List.app_nil_r; reflexivity.
    + destruct (log_write _ _ _ _) as [ack x'']. cbn [snd trace].
      rewrite List.filter_app. reflexivity.
Qed.

End RegistryFurther.

(** ** The mail handlers, further *)

Section MailFurther.
Context {X : Type} `{Services X} (cfg : config).

(** X13: an order of a user whose record has a truthy [email] gets one
    confirmation, addressed to that [email], with the subject of the
    order confirmation.  The handler resolves whether the transport
    delivers or fails, and leaves the database as it was. *)
Theorem sendOrderConfirmation_sends uid orderId (w : world X) :
  let user := db_get (user_ref uid) (db w) in
  truthy (prop user "email") = true ->
  fst (sendOrderConfirmation cfg uid orderId w) = Fulfilled None
  /\ db (snd (sendOrderConfirmation cfg uid orderId w)) = db w
  /\ exists mailOptions,
       List.filter mail_sent (trace (snd (sendOrderConfirmation cfg uid orderId w))) =
         List.filter mail_sent (trace w) ++ [SendMail mailOptions]
       /\ field mailOptions "to" = prop user "email"
       /\ field mailOptions "subject" = Some (JStr "Order Confirmation").
Proof.
  intros user Hemail. unfold sendOrderConfirmation.
  rewrite order_grandparent. run_chain. fold user. unfold member.
  assert (is_null user = false) as ->
    by (destruct user; try reflexivity; discriminate Hemail).
  run_chain. rewrite Hemail, send_and_log_run.
  destruct (sendMail _ _) as [[info|e] x']; cbn [fst snd db trace];
    (split; [reflexivity|]; split; [reflexivity|]; eexists;
     split;
       [rewrite mails_after_send by reflexivity;
        rewrite List.filter_app; cbn [List.filter mail_sent];
        rewrite List.app_nil_r; reflexivity
       | split; reflexivity]).
Qed.

(** X14: the deletion of an admin record is not handled.  When the new
    value is [null] and the snapshot reports [active] as changed, reading
    [val.email] throws: the invocation fails with the [TypeError], and
    nothing is sent or logged. *)
Theorem sendEmailConfirmation_deleted_record snapshot (w : world X) :
  snap_val snapshot = JNull ->
  snap_changed snapshot "active" = true ->
  sendEmailConfirmation cfg snapshot w = (Rejected (type_error "email"), w).
Proof.
  intros Hval Hchanged. unfold sendEmailConfirmation.
  rewrite Hchanged, Hval. reflexivity.
Qed.

(** X15: [sendEmailConfirmation] only ever sends mail.  It never writes to
    the database and never calls the payment provider, and on a value
    other than [null] it resolves, whether or not a mail was due and
    whether the transport delivered it or failed. *)
Theorem sendEmailConfirmation_only_mails snapshot (w : world X) :
  let outcome := fst (sendEmailConfirmation cfg snapshot w) in
  let w1 := snd (sendEmailConfirmation cfg snapshot w) in
  db w1 = db w
  /\ List.filter provider_call (trace w1) = List.filter provider_call (trace w)
  /\ List.filter db_update (trace w1) = List.filter db_update (trace w)
  /\ (is_null (snap_val snapshot) = false -> outcome = Fulfilled None).
Proof.
  intros outcome w1. unfold outcome, w1, sendEmailConfirmation.
  destruct (snap_changed snapshot "active"); cbn [negb];
    [|repeat split; reflexivity].
  unfold member. destruct (is_null (snap_val snapshot)).
  - run_chain. repeat split; try reflexivity. discriminate.
  - run_chain. destruct (truthy (prop (snap_val snapshot) "active")); cbn [negb];
      [repeat split; reflexivity|].
    rewrite send_and_log_run.
    destruct (sendMail _ _) as [[info|e] x']; cbn [fst snd db trace];
      rewrite !List.filter_app; cbn [List.filter provider_call db_update];
      rewrite !List.app_nil_r; repeat split; reflexivity.
Qed.

End MailFurther.

(** ** The further properties against the test doubles *)

Lemma cleanupUser_after_create_passes_record_witness :
  let w1 := snd (createTheStripeCustomer "u1" (Some (JStr "a@b.c")) Double.start) in
  let passed := db_get (stripe_customers "u1") (db w1) in
  passed = JObj {[ "customer_id" := JStr "cus_0" ]}
  /\ passed <> JStr "cus_0"
  /\ List.filter provider_call (trace (snd (cleanupUser "u1" w1))) =
       List.filter provider_call (trace w1) ++ [CustomersDel passed].
Proof.
  intros w1 passed.
  assert (customers_create [("email", Some (JStr "a@b.c"))] (ext Double.start) =
          (Fulfilled (JObj {[ "id" := JStr "cus_0"; "object" := JStr "customer" ]}),
           Double.mk_state ["cus_0"] 1 false)) as Hcreate by (vm_compute; reflexivity).
  assert (prop (JObj {[ "id" := JStr "cus_0"; "object" := JStr "customer" ]}) "id" =
          Some (JStr "cus_0")) as Hid by (vm_compute; reflexivity).
  destruct (cleanupUser_after_create_passes_record "u1" (Some (JStr "a@b.c"))
              Double.start _ _ "cus_0" Hcreate Hid) as (_ & Hother & Hcalls).
  split; [vm_compute; reflexivity|]. split; [exact Hother | exact Hcalls].
Defined.

Lemma createStripeCharge_sink_failure_witness :
  let val := JObj {[ "amount" := JNum 500 ]} in
  fst (createStripeCharge Double.cfg val "u1" "c1" Faulty.seeded) = Rejected Faulty.unavailable
  /\ db_get (charge_ref "u1" "c1" ++ ["error"])
       (db (snd (createStripeCharge Double.cfg val "u1" "c1" Faulty.seeded))) =
     JStr EmptyString.
Proof.
  intros val.
  assert (is_null val || truthy (prop val "id") || truthy (prop val "error") = false)
    as Hfresh by (vm_compute; reflexivity).
  exact (createStripeCharge_sink_failure Double.cfg val "u1" "c1" Faulty.seeded
           Faulty.blank Faulty.down Faulty.unavailable Faulty.down
           Hfresh eq_refl eq_refl).
Defined.

Lemma createStripeCharge_missing_customer_witness :
  let val := JObj {[ "amount" := JNum 500 ]} in
  db_get (customer_id_ref "u1") (db Double.start) = JNull
  /\ exists charge,
       List.filter provider_call
         (trace (snd (createStripeCharge Double.cfg val "u1" "c1" Double.start))) =
         List.filter provider_call (trace Double.start) ++ [ChargesCreate charge "c1"]
       /\ field charge "customer" = Some JNull.
Proof.
  intros val.
  assert (is_null val || truthy (prop val "id") || truthy (prop val "error") = false)
    as Hfresh by (vm_compute; reflexivity).
  split; [reflexivity|].
  exact (createStripeCharge_missing_customer Double.cfg val "u1" "c1" Double.start
           Hfresh eq_refl).
Defined.

Lemma createStripeCharge_redelivery_witness :
  let val := JObj {[ "amount" := JNum 500 ]} in
  let w := Double.registered true in
  let w1 := snd (createStripeCharge Double.cfg val "u1" "c1" w) in
  let request :=
    ChargesCreate
      [("amount", Some (JNum 500)); ("currency", Some (JStr "USD"));
       ("customer", Some (JStr "cus_123")); ("source", None)] "c1" in
  List.filter provider_call (trace (snd (createStripeCharge Double.cfg val "u1" "c1" w1))) =
    [request; request].
Proof.
  intros val w w1 request.
  assert (is_null val || truthy (prop val "id") || truthy (prop val "error") = false)
    as Hfresh by (vm_compute; reflexivity).
  destruct (createStripeCharge_redelivery Double.cfg val "u1" "c1" w Hfresh) as [_ Htwice].
  unfold w1. rewrite Htwice. vm_compute. reflexivity.
Defined.

Lemma createStripeCharge_error_marks_processed_witness :
  let val := JObj {[ "amount" := JNum 500 ]} in
  let w := Double.registered true in
  let val1 := db_get (charge_ref "u1" "c1")
                (db (snd (createStripeCharge Double.cfg val "u1" "c1" w))) in
  prop val1 "error" = Some (JStr "Your card was declined.")
  /\ createStripeCharge Double.cfg val1 "u1" "c1" w = (Fulfilled (Some JNull), w).
Proof.
  intros val w val1.
  assert (is_null val || truthy (prop val "id") || truthy (prop val "error") = false)
    as Hfresh by (vm_compute; reflexivity).
  assert (charges_create
            (charge_of Double.cfg val (db_get (customer_id_ref "u1") (db w))) "c1" (ext w) =
          (Rejected Double.card_declined, ext w)) as Hcharge by (vm_compute; reflexivity).
  assert (userFacingMessage Double.card_declined <> EmptyString) as Hmessage
    by (vm_compute; discriminate).
  destruct (createStripeCharge_error_marks_processed Double.cfg val "u1" "c1" w
              Double.card_declined (ext w) Hfresh Hcharge Hmessage) as [Herror Hnoop].
  split; [exact Herror | apply Hnoop].
Defined.

Lemma createStripeCharge_response_marks_processed_witness :
  let val := JObj {[ "amount" := JNum 500 ]} in
  let w := Wordy.seeded in
  let w1 := snd (createStripeCharge Double.cfg val "u1" "c1" w) in
  let val1 := db_get (charge_ref "u1" "c1") (db w1) in
  prop Wordy.charged "failure_code" = Some JNull
  /\ prop val1 "failure_code" = None
  /\ prop val1 "id" = Some (JStr "ch_1")
  /\ createStripeCharge Double.cfg val1 "u1" "c1" w1 = (Fulfilled (Some JNull), w1).
Proof.
  intros val w w1 val1.
  assert (is_null val || truthy (prop val "id") || truthy (prop val "error") = false)
    as Hfresh by (vm_compute; reflexivity).
  assert (charges_create
            (charge_of Double.cfg val (db_get (customer_id_ref "u1") (db w))) "c1" (ext w) =
          (Fulfilled Wordy.charged, ext w)) as Hcharge by reflexivity.
  assert (storable Wordy.charged = true) as Hstorable by (vm_compute; reflexivity).
  assert (prop Wordy.charged "id" = Some (JStr "ch_1")) as Hid by (vm_compute; reflexivity).
  assert ("ch_1" <> EmptyString) as Hcharged by discriminate.
  destruct (createStripeCharge_response_marks_processed Double.cfg val "u1" "c1" w
              Wordy.charged (ext w) "ch_1" Hfresh Hcharge Hstorable Hid Hcharged)
    as [Hid1 Hnoop].
  split; [vm_compute; reflexivity|]. split; [vm_compute; reflexivity|].
  split; [exact Hid1 | apply Hnoop].
Defined.

Lemma createStripeCharge_empty_message_reprocessed_witness :
  let val := JObj {[ "amount" := JNum 500 ]} in
  let w1 := snd (createStripeCharge Double.cfg val "u1" "c1" Faulty.seeded) in
  let val1 := db_get (charge_ref "u1" "c1") (db w1) in
  db_get (charge_ref "u1" "c1") (db Faulty.seeded) = val
  /\ userFacingMessage Faulty.blank = EmptyString
  /\ prop val1 "error" = Some (JStr EmptyString)
  /\ List.length
       (List.filter provider_call
          (trace (snd (createStripeCharge Double.cfg val1 "u1" "c1" w1)))) = 2.
Proof.
  intros val w1 val1.
  assert (is_null val || truthy (prop val "id") || truthy (prop val "error") = false)
    as Hfresh by (vm_compute; reflexivity).
  assert (db_get (charge_ref "u1" "c1") (db Faulty.seeded) = val) as Hstored
    by (vm_compute; reflexivity).
  assert (charges_create
            (charge_of Double.cfg val (db_get (customer_id_ref "u1") (db Faulty.seeded)))
            "c1" (ext Faulty.seeded) = (Rejected Faulty.blank, Faulty.down))
    as Hcharge by reflexivity.
  assert (userFacingMessage Faulty.blank = EmptyString) as Hmessage by reflexivity.
  destruct (createStripeCharge_empty_message_reprocessed Double.cfg val "u1" "c1"
              Faulty.seeded Faulty.blank Faulty.down Hfresh Hstored Hcharge Hmessage)
    as (Herror & _ & Hagain).
  split; [exact Hstored|]. split; [reflexivity|]. split; [exact Herror|].
  unfold val1, w1. rewrite Hagain. vm_compute. reflexivity.
Defined.

Lemma createStripeCharge_leaves_rest_witness :
  let val := JObj {[ "amount" := JNum 500 ]} in
  let w := Double.registered false in
  let w1 := snd (createStripeCharge Double.cfg val "u1" "c1" w) in
  db_get (customer_id_ref "u1") (db w1) = JStr "cus_123"
  /\ db_get (charge_ref "u1" "c2" ++ ["amount"]) (db w1) =
       db_get (charge_ref "u1" "c2" ++ ["amount"]) (db w)
  /\ db_get (stripe_customers "u2" ++ ["customer_id"]) (db w1) =
       db_get (stripe_customers "u2" ++ ["customer_id"]) (db w).
Proof.
  intros val w w1.
  destruct (createStripeCharge_leaves_rest Double.cfg val "u1" "c1" w)
    as (Hcustomer & Hrequests & Haccounts).
  split; [|split].
  - unfold w1. rewrite Hcustomer. vm_compute. reflexivity.
  - apply Hrequests. discriminate.
  - apply Haccounts. discriminate.
Defined.

Lemma addPaymentSource_token_after_witness :
  let accepted := snd (addPaymentSource Double.cfg (JStr "tok_visa") "u1" "s1" Wordy.seeded) in
  let stored :=
    mk_world
      (db_write (token_ref "u1" "s1") (JStr "tok_visa") (db (Double.registered true)))
      (ext (Double.registered true)) [] in
  let declined := snd (addPaymentSource Double.cfg (JStr "tok_visa") "u1" "s1" stored) in
  db_get (token_ref "u1" "s1") (db Wordy.seeded) = JStr "tok_visa"
  /\ db_get (token_ref "u1" "s1") (db accepted) = JNull
  /\ db_get (token_ref "u1" "s1") (db declined) = JStr "tok_visa"
  /\ prop (db_get (parent (token_ref "u1" "s1")) (db declined)) "error" =
       Some (JStr "Your card was declined.").
Proof.
  intros accepted stored declined.
  pose proof (addPaymentSource_token_after Double.cfg (JStr "tok_visa") "u1" "s1"
                Wordy.seeded eq_refl) as Haccepted.
  pose proof (addPaymentSource_token_after Double.cfg (JStr "tok_visa") "u1" "s1"
                stored eq_refl) as Hdeclined.
  cbv zeta in Haccepted, Hdeclined.
  assert (customers_createSource (db_get (customer_id_ref "u1") (db Wordy.seeded))
            [("source", Some (JStr "tok_visa"))] (ext Wordy.seeded) =
          (Fulfilled Wordy.card, ext Wordy.seeded)) as Hcall by reflexivity.
  assert (customers_createSource (db_get (customer_id_ref "u1") (db stored))
            [("source", Some (JStr "tok_visa"))] (ext stored) =
          (Rejected Double.card_declined, ext stored)) as Hrefusal
    by (vm_compute; reflexivity).
  rewrite Hcall in Haccepted. rewrite Hrefusal in Hdeclined.
  cbn [fst] in Haccepted, Hdeclined. destruct Hdeclined as [Hkept Herror].
  split; [vm_compute; reflexivity|]. split.
  - apply Haccepted; vm_compute; reflexivity.
  - split; [|exact Herror]. unfold declined. rewrite Hkept. vm_compute. reflexivity.
Defined.

Lemma cleanupUser_leaves_others_witness :
  let w := mk_world
             (db_write (charge_ref "u2" "c7") (JObj {[ "amount" := JNum 900 ]})
                (db_write (customer_id_ref "u2") (JStr "cus_9")
                   (db_write (stripe_customers "u1") (JStr "cus_123") JNull)))
             (Double.mk_state ["cus_123"; "cus_9"] 2 false) [] in
  let w1 := snd (cleanupUser "u1" w) in
  db_get (stripe_customers "u1") (db w) = JStr "cus_123"
  /\ db_get (stripe_customers "u1") (db w1) = JNull
  /\ db_get (stripe_customers "u2" ++ ["customer_id"]) (db w1) = JStr "cus_9"
  /\ db_get (stripe_customers "u2" ++ ["charges"; "c7"; "amount"]) (db w1) = JNum 900.
Proof.
  intros w w1.
  destruct (cleanupUser_leaves_others "u1" w) as [Hkept _].
  split; [vm_compute; reflexivity|]. split; [vm_compute; reflexivity|]. split.
  - unfold w1. rewrite Hkept by discriminate. vm_compute. reflexivity.
  - unfold w1. rewrite Hkept by discriminate. vm_compute. reflexivity.
Defined.

Lemma createTheStripeCustomer_failures_witness :
  let w := mk_world JNull Faulty.down [] in
  createTheStripeCustomer "u1" (Some (JStr "a@b.c")) w =
    (Rejected (set_refused (customer_id_ref "u1") None),
     mk_world JNull Faulty.down [CustomersCreate [("email", Some (JStr "a@b.c"))]]).
Proof.
  intros w.
  assert (match fst (customers_create [("email", Some (JStr "a@b.c"))] (ext w)) with
          | Rejected _ => true
          | Fulfilled customer =>
              match prop customer "id" with
              | None => true
              | Some _ => false
              end
          end = true) as Hfailure by (vm_compute; reflexivity).
  pose proof (createTheStripeCustomer_failures "u1" (Some (JStr "a@b.c")) w) as Hfails.
  cbv zeta in Hfails. destruct (Hfails Hfailure) as (e & Hrun & He).
  rewrite Hrun. cbn in He. rewrite He. reflexivity.
Defined.

Lemma registration_serves_later_requests_witness :
  let w1 := snd (createTheStripeCustomer "u1" (Some (JStr "a@b.c")) Double.start) in
  let val := JObj {[ "amount" := JNum 500 ]} in
  List.filter provider_call (trace (snd (createStripeCharge Double.cfg val "u1" "c1" w1))) =
    [CustomersCreate [("email", Some (JStr "a@b.c"))];
     ChargesCreate (charge_of Double.cfg val (JStr "cus_0")) "c1"]
  /\ List.filter provider_call
       (trace (snd (addPaymentSource Double.cfg (JStr "tok_visa") "u1" "s1" w1))) =
     [CustomersCreate [("email", Some (JStr "a@b.c"))];
      CustomersCreateSource (JStr "cus_0") [("source", Some (JStr "tok_visa"))]].
Proof.
  intros w1 val.
  assert (is_null val || truthy (prop val "id") || truthy (prop val "error") = false)
    as Hfresh by (vm_compute; reflexivity).
  assert (customers_create [("email", Some (JStr "a@b.c"))] (ext Double.start) =
          (Fulfilled (JObj {[ "id" := JStr "cus_0"; "object" := JStr "customer" ]}),
           Double.mk_state ["cus_0"] 1 false)) as Hcreate by (vm_compute; reflexivity).
  assert (prop (JObj {[ "id" := JStr "cus_0"; "object" := JStr "customer" ]}) "id" =
          Some (JStr "cus_0")) as Hid by (vm_compute; reflexivity).
  destruct (registration_serves_later_requests Double.cfg "u1" (Some (JStr "a@b.c"))
              Double.start _ _ "cus_0" val "c1" (JStr "tok_visa") "s1"
              Hcreate Hid Hfresh eq_refl)
    as (Hcharge & _ & Hsource).
  unfold w1. rewrite Hcharge, Hsource. split; vm_compute; reflexivity.
Defined.

Lemma sendOrderConfirmation_sends_witness :
  truthy (prop (db_get (user_ref "u1") (db Faulty.seeded)) "email") = true
  /\ fst (sendMail [] (ext Faulty.seeded)) = Rejected Faulty.unavailable
  /\ fst (sendOrderConfirmation Double.cfg "u1" "o1" Faulty.seeded) = Fulfilled None.
Proof.
  assert (truthy (prop (db_get (user_ref "u1") (db Faulty.seeded)) "email") = true)
    as Hemail by (vm_compute; reflexivity).
  split; [exact Hemail|]. split; [reflexivity|].
  exact (proj1 (sendOrderConfirmation_sends Double.cfg "u1" "o1" Faulty.seeded Hemail)).
Defined.

Lemma sendEmailConfirmation_deleted_record_witness :
  sendEmailConfirmation Double.cfg (mk_snapshot JNull true) Double.start =
    (Rejected (type_error "email"), Double.start).
Proof.
  exact (sendEmailConfirmation_deleted_record Double.cfg
           (mk_snapshot JNull true) Double.start eq_refl eq_refl).
Defined.

Lemma sendEmailConfirmation_only_mails_witness :
  let snapshot :=
    mk_snapshot (JObj {[ "email" := JStr "a@b.c"; "active" := JBool false ]}) true in
  List.filter mail_sent
    (trace (snd (sendEmailConfirmation Double.cfg snapshot Faulty.seeded))) <> []
  /\ fst (sendEmailConfirmation Double.cfg snapshot Faulty.seeded) = Fulfilled None.
Proof.
  intros snapshot. split; [vm_compute; discriminate|].
  exact (proj2 (proj2 (proj2
           (sendEmailConfirmation_only_mails Double.cfg snapshot Faulty.seeded))) eq_refl).
Defined.
